(** * oio-swift: response decryption middleware

    A shallow embedding of
    [oioswift/common/middleware/crypto/decrypter.py]: the key resolver
    [DecrypterObjContext.get_decryption_keys], the header reconciler
    [DecrypterObjContext.decrypt_resp_headers] and the dispatcher
    [Decrypter.__call__].

    The module subclasses swift's own decrypter and calls into swift for
    everything it does not decide itself.  Those calls are kept abstract
    (class [Swift] below).  The calls to the key service, to the header
    decryption, to the metadata remap, to the handlers and to the next
    application are recorded in an event trace, together with the debug
    log lines, so that "retries with scope ['container']" or "is logged,
    not raised" are statements about the run and not only about its
    result.  The lookups ([get_object_info], [_response_header_value],
    [get_container_update_override_key], [config_true_value],
    [split_path]) are taken as functions and leave no event: the trace
    says nothing about them. *)

From Stdlib Require Import Ascii String.
From stdpp Require Import base strings list gmap.

Local Open Scope string_scope.
Local Open Scope list_scope.

(** ** Python values *)

(** The dynamically typed values that flow through the module: header
    values, keys, WSGI environment entries.  [None], booleans and
    strings are the only shapes the code distinguishes. *)
Inductive pyval : Type :=
| PyNone
| PyBool (b : bool)
| PyStr (s : string).

Global Instance pyval_eq_dec : EqDecision pyval.
Proof. solve_decision. Defined.

(** Python truthiness, as used by [if x:] and [x and y]. *)
Definition truthy (v : pyval) : bool :=
  match v with
  | PyNone => false
  | PyBool b => b
  | PyStr s => negb (String.eqb s "")
  end.

(** [a != b] on values. *)
Definition py_ne (a b : pyval) : bool := negb (bool_decide (a = b)).

(** A Python [dict] with string keys.  A variable holding "a dict or
    None" is an [option dict]. *)
Abbreviation dict := (gmap string pyval).

(** [if d:] for a dict-or-None: [None] and the empty dict are falsy. *)
Definition dict_truthy (d : option dict) : bool :=
  match d with
  | None => false
  | Some m => negb (bool_decide (m = ∅))
  end.

(** [d.get(k)]: the value, or [None] when the key is missing. *)
Definition dict_get (m : dict) (k : string) : pyval :=
  default PyNone (m !! k).

(** [str.lower()] on byte strings: only the letters A-Z change. *)
Definition lower_ascii (c : ascii) : ascii :=
  let n := nat_of_ascii c in
  if (65 <=? n)%nat && (n <=? 90)%nat then ascii_of_nat (n + 32) else c.

Fixpoint lower (s : string) : string :=
  match s with
  | EmptyString => EmptyString
  | String c s' => String (lower_ascii c) (lower s')
  end.

(** A response header, as a [(name, value)] tuple. *)
Abbreviation header := (string * pyval)%type.

(** ** Exceptions *)

(** The exception classes the module catches or raises.  In
    [swift.common.swob] every [HTTPxxx] name is [HTTPException] with the
    status filled in, the first positional argument being the body. *)
Inductive exn : Type :=
| KeyError (key : string)
| ValueError (msg : string)
| IndexError
| HTTPException (status : nat) (body : string)
| OtherError (name : string).

Definition HTTPForbidden (body : string) : exn := HTTPException 403 body.

(** [except HTTPException], [except KeyError], [except ValueError]. *)
Definition is_HTTPException (e : exn) : bool :=
  match e with HTTPException _ _ => true | _ => false end.

Definition is_KeyError (e : exn) : bool :=
  match e with KeyError _ => true | _ => false end.

Definition is_ValueError (e : exn) : bool :=
  match e with ValueError _ => true | _ => false end.

Inductive outcome (A : Type) : Type :=
| Return (a : A)
| Raise (e : exn).
Arguments Return {A} a.
Arguments Raise {A} e.

(** ** Runs: an outcome and the trace of what was called and logged *)

Inductive handler_kind : Type := ObjContext | ContContext.

Inductive event : Type :=
| LogDebug (msg : string)
| CallGetKeys (required : option (list string)) (key_id : pyval)
| CallDecryptHeader (name : string) (value key : pyval) (required : bool)
| CallDecryptUserMetadata (keys : option dict)
| CallApp
| CallHandle (h : handler_kind)
| CallErrorResponse (status : nat) (body : string).

Definition M (A : Type) : Type := (outcome A * list event)%type.

Definition ret {A} (a : A) : M A := (Return a, []).

Definition raise {A} (e : exn) : M A := (Raise e, []).

Definition bind {A B} (m : M A) (k : A → M B) : M B :=
  match m with
  | (Return a, t) => let '(r, t') := k a in (r, (t ++ t')%list)
  | (Raise e, t) => (Raise e, t)
  end.

Notation "'let*' x ':=' m 'in' k" := (bind m (λ x, k))
  (at level 10, x pattern, m at level 100, k at level 200).
Notation "m ';;' k" := (bind m (λ _, k))
  (at level 100, k at level 200, right associativity).

(** An external call: the event, then what the callee did. *)
Definition call {A} (ev : event) (r : outcome A) : M A := (r, [ev]).

Definition log_debug (msg : string) : M unit := (Return (), [LogDebug msg]).

(** [try: body / except <class>: handler].  An exception outside the
    class passes through. *)
Definition try_except {A} (body : M A) (caught : exn → bool)
    (handler : exn → M A) : M A :=
  match body with
  | (Return a, t) => (Return a, t)
  | (Raise e, t) =>
      if caught e then let '(r, t') := handler e in (r, (t ++ t')%list)
      else (Raise e, t)
  end.

(** [seq[i]] on a list: [IndexError] out of range. *)
Definition py_index {A} (l : list A) (i : nat) : M A :=
  match l !! i with
  | Some x => ret x
  | None => raise IndexError
  end.

(** [d[k]] on a dict: [KeyError] when the key is missing. *)
Definition py_getitem (d : dict) (k : string) : M pyval :=
  match d !! k with
  | Some v => ret v
  | None => raise (KeyError k)
  end.

(** [k in d] *)
Definition py_in (k : string) (d : dict) : bool := bool_decide (k ∈ dom d).

(** ** The request *)

(** A WSGI environment together with the [Request] view of it: the
    method, the path, and the remaining entries. *)
Record request : Type := {
  method : string;
  path : string;
  environ : dict;
}.

(** [req.method in ('HEAD', 'GET')] *)
Definition is_read_method (m : string) : bool :=
  bool_decide (m = "HEAD") || bool_decide (m = "GET").

(** The info dict of [get_object_info]; only ['sysmeta'] is read. *)
Record object_info : Type := {
  sysmeta : dict;
}.

(** ** What swift provides *)

(** The imported functions and the members inherited from swift's
    [DecrypterObjContext] and [Decrypter].  None of them is defined in
    this repository; the theorems hold for every implementation. *)
Class Swift : Type := {
  (** [swift.common.utils.config_true_value] *)
  config_true_value : pyval → bool;
  (** [swift.proxy.controllers.base.get_object_info] *)
  get_object_info : dict → object_info;
  (** [swift.common.request_helpers.get_container_update_override_key] *)
  get_container_update_override_key : string → string;
  (** [Request.split_path] on the request's path *)
  split_path : string → nat → nat → bool → outcome (list pyval);
  (** [self.get_keys(env, required, key_id)] *)
  get_keys : dict → option (list string) → pyval → outcome dict;
  (** [self._response_headers] *)
  _response_headers : list header;
  (** [self._response_header_value(name)] *)
  _response_header_value : string → pyval;
  (** [self._decrypt_header(header, value, key, required)] *)
  _decrypt_header : string → pyval → pyval → bool → outcome pyval;
  (** [self.decrypt_user_metadata(keys)] *)
  decrypt_user_metadata : option dict → outcome (list header);
  (** what a WSGI application returns *)
  response : Type;
  (** [self.app(env, start_response)], the next pipeline stage *)
  app : request → response;
  (** [DecrypterObjContext(...).handle] and [DecrypterContContext(...).handle] *)
  handle : handler_kind → request → outcome response;
  (** an [HTTPException] instance called as a WSGI application *)
  error_response : nat → string → request → response;
}.

Section Decrypter.

Context `{Swift}.

(** ** [DecrypterObjContext.get_decryption_keys] *)

(** [crypto_meta.get('key_id') if crypto_meta else None] (line 42) *)
Definition key_id_of (crypto_meta : option dict) : pyval :=
  if dict_truthy crypto_meta
  then dict_get (default ∅ crypto_meta) "key_id"
  else PyNone.

Definition get_decryption_keys (req : request) (crypto_meta : option dict)
    : M (option dict) :=
  if config_true_value (dict_get (environ req) "swift.crypto.override") then
    log_debug "No decryption is necessary because of override" ;;
    ret None
  else
    let info := get_object_info (environ req) in
    if negb (py_in "crypto-etag" (sysmeta info)) then
      (* object is not cyphered *)
      ret None
    else
      let key_id := key_id_of crypto_meta in
      try_except
        (let* keys := call (CallGetKeys None key_id)
                           (get_keys (environ req) None key_id) in
         ret (Some keys))
        is_HTTPException
        (λ e,
           if is_read_method (method req) then
             try_except
               (let* keys := call (CallGetKeys (Some ["container"]) key_id)
                                  (get_keys (environ req)
                                            (Some ["container"]) key_id) in
                ret (Some keys))
               is_HTTPException
               (λ _, ret None)
           else
             raise e).

(** ** [DecrypterObjContext.decrypt_resp_headers] *)

(** The set comprehension [{h.lower() for h, v in mod_hdr_pairs}]. *)
Definition lower_names (pairs : list header) : gset string :=
  list_to_set ((λ hv, lower hv.1) <$> pairs).

(** The body of [if put_keys:] (lines 74-98).  It receives the list built
    so far and returns it extended; [decrypted_etag] is the local
    variable of the same name. *)
Definition decrypt_etag_headers (put_keys : dict)
    (mod_hdr_pairs : list header) : M (list header) :=
  let etag_header := "X-Object-Sysmeta-Crypto-Etag" in
  let encrypted_etag := _response_header_value etag_header in
  let decrypted_etag := PyNone in
  let* (decrypted_etag, mod_hdr_pairs) :=
    (if truthy encrypted_etag && py_in "object" put_keys then
       let* key := py_getitem put_keys "object" in
       let* decrypted_etag :=
         call (CallDecryptHeader etag_header encrypted_etag key true)
              (_decrypt_header etag_header encrypted_etag key true) in
       ret (decrypted_etag, mod_hdr_pairs ++ [("Etag", decrypted_etag)])
     else
       ret (decrypted_etag, mod_hdr_pairs)) in
  let etag_header := get_container_update_override_key "etag" in
  let encrypted_etag := _response_header_value etag_header in
  if truthy encrypted_etag && py_in "container" put_keys then
    let* key := py_getitem put_keys "container" in
    let* dcrypt_etag_override :=
      call (CallDecryptHeader etag_header encrypted_etag key false)
           (_decrypt_header etag_header encrypted_etag key false) in
    if truthy decrypted_etag && py_ne dcrypt_etag_override decrypted_etag then
      log_debug "Failed ETag verification" ;;
      raise (HTTPForbidden "Invalid key")
    else
      ret (mod_hdr_pairs ++ [(etag_header, dcrypt_etag_override);
                             ("ETag", dcrypt_etag_override)])
  else
    ret mod_hdr_pairs.

(** The body of the [try:] (lines 108-113).  The only operation in it
    that can raise is the call to [decrypt_user_metadata], which is
    evaluated before [extend] touches the list: when the handler runs,
    [mod_hdr_pairs] is still the list the [try] started with. *)
Definition remap_and_merge (post_keys : option dict)
    (mod_hdr_pairs : list header) : M (list header) :=
  let* mod_hdr_pairs :=
    (if dict_truthy post_keys then
       let* decrypted := call (CallDecryptUserMetadata post_keys)
                              (decrypt_user_metadata post_keys) in
       ret (mod_hdr_pairs ++ decrypted)
     else
       ret mod_hdr_pairs) in
  let mod_hdr_names := lower_names mod_hdr_pairs in
  ret (mod_hdr_pairs
       ++ filter (λ hv, lower hv.1 ∉ mod_hdr_names) _response_headers).

Definition decrypt_resp_headers (put_keys post_keys : option dict)
    : M (list header) :=
  let mod_hdr_pairs := [] in
  let* mod_hdr_pairs :=
    (if dict_truthy put_keys then
       decrypt_etag_headers (default ∅ put_keys) mod_hdr_pairs
     else
       ret mod_hdr_pairs) in
  try_except
    (remap_and_merge post_keys mod_hdr_pairs)
    is_KeyError
    (λ _, log_debug "Not able to decrypt user metadata" ;;
          ret mod_hdr_pairs).

(** ** [Decrypter.__call__] *)

(** [handler(req, start_response)] under [except HTTPException as
    err_resp: return err_resp(env, start_response)] (lines 138-141). *)
Definition run_handler (h : handler_kind) (env : request) : M response :=
  try_except
    (call (CallHandle h) (handle h env))
    is_HTTPException
    (λ err_resp,
       match err_resp with
       | HTTPException status body =>
           call (CallErrorResponse status body)
                (Return (error_response status body env))
       | e => raise e
       end).

Definition Decrypter_call (env : request) : M response :=
  let req := env in
  match split_path (path req) 3 4 true with
  | Raise e =>
      if is_ValueError e then call CallApp (Return (app env))
      else raise e
  | Return parts =>
      let* parts3 := py_index parts 3 in
      if truthy parts3 && is_read_method (method req) then
        run_handler ObjContext req
      else
        let* parts2 := py_index parts 2 in
        if truthy parts2 && bool_decide (method req = "GET") then
          run_handler ContContext req
        else
          (* url and/or request verb is not handled by decrypter *)
          call CallApp (Return (app env))
  end.

(** ** The dispatcher's routing, in the words of the specification *)

Inductive route : Type := PassThrough | ToObjectHandler | ToContainerHandler.

(** A segment is present when it is neither [None] nor empty. *)
Definition segment_present (seg : pyval) : bool := truthy seg.

(** The routing table of the specification: [parsed] is [None] when the
    lenient parse failed, otherwise the container and the object
    segment. *)
Definition spec_route (parsed : option (pyval * pyval)) (verb : string)
    : route :=
  match parsed with
  | None => PassThrough
  | Some (container, object) =>
      if segment_present object
         && (bool_decide (verb = "HEAD") || bool_decide (verb = "GET"))
      then ToObjectHandler
      else if segment_present container && negb (segment_present object)
              && bool_decide (verb = "GET")
      then ToContainerHandler
      else PassThrough
  end.

(** What each route does with the request. *)
Definition follow_route (r : route) (env : request) : M response :=
  match r with
  | PassThrough => call CallApp (Return (app env))
  | ToObjectHandler => run_handler ObjContext env
  | ToContainerHandler => run_handler ContContext env
  end.

(** ** The stages of [decrypt_resp_headers], for stating properties *)

(** [mod_hdr_pairs] when the [try:] is entered (after line 98). *)
Definition etag_stage (put_keys : option dict) : M (list header) :=
  if dict_truthy put_keys then
    decrypt_etag_headers (default ∅ put_keys) []
  else
    ret [].

(** [mod_hdr_pairs] when [mod_hdr_names] is computed (line 111), or when
    the handler runs: the staged headers, before any raw response header
    is taken over. *)
Definition staged_pairs (put_keys post_keys : option dict)
    : M (list header) :=
  let* mod_hdr_pairs := etag_stage put_keys in
  try_except
    (if dict_truthy post_keys then
       let* decrypted := call (CallDecryptUserMetadata post_keys)
                              (decrypt_user_metadata post_keys) in
       ret (mod_hdr_pairs ++ decrypted)
     else
       ret mod_hdr_pairs)
    is_KeyError
    (λ _, ret mod_hdr_pairs).

(** The calls [decrypt_resp_headers] may make: the object-scope header
    with the bundle's object key and [required=True], the container-scope
    header with the bundle's container key and [required=False], the
    metadata remap with [post_keys]; and debug log lines. *)
Definition expected_event (put_keys post_keys : option dict) (ev : event)
    : Prop :=
  match ev with
  | CallDecryptHeader name value key required =>
      ∃ d, put_keys = Some d
           ∧ ((name = "X-Object-Sysmeta-Crypto-Etag"
               ∧ d !! "object" = Some key ∧ required = true)
              ∨ (name = get_container_update_override_key "etag"
                 ∧ d !! "container" = Some key ∧ required = false))
           ∧ value = _response_header_value name ∧ truthy value = true
  | CallDecryptUserMetadata keys =>
      keys = post_keys ∧ dict_truthy post_keys = true
  | LogDebug _ => True
  | _ => False
  end.

(** No two entries have the same name up to case. *)
Definition names_distinct (pairs : list header) : Prop :=
  NoDup ((λ hv, lower hv.1) <$> pairs).

(** The object-scope and the container-scope header names. *)
Definition crypto_etag_header : string := "X-Object-Sysmeta-Crypto-Etag".
Definition override_etag_header : string :=
  get_container_update_override_key "etag".

End Decrypter.

(** ** A small swift to run the code on

    Stand-ins for the swift members, close to what swift does, used by
    the worked examples at the end of the file.  Nothing above or in the
    general theorems depends on them. *)

Module Toy.

(** [WSGIContext._response_header_value]: the first header whose name
    matches, compared in lower case. *)
Fixpoint header_value (headers : list header) (key : string) : pyval :=
  match headers with
  | [] => PyNone
  | (h, v) :: rest =>
      if String.eqb (lower h) (lower key) then v else header_value rest key
  end.

Definition TRUE_VALUES : list string := ["true"; "1"; "yes"; "on"; "t"; "y"].

Definition true_value (v : pyval) : bool :=
  match v with
  | PyNone => false
  | PyBool b => b
  | PyStr s => bool_decide (lower s ∈ TRUE_VALUES)
  end.

Definition override_key (key : string) : string :=
  String.append "X-Object-Sysmeta-Container-Update-Override-"
    (match key with
     | String c rest =>
         String (if String.eqb (String c "") "e" then "E"%char else c) rest
     | EmptyString => EmptyString
     end).

(** A toy cipher: the ciphertext of [p] under key [k] is [k|p].  A value
    that was not produced with the key fails to decrypt: an internal
    server error when the header is required, no value otherwise. *)
Definition decrypt_header (name : string) (value key : pyval)
    (required : bool) : outcome pyval :=
  match value, key with
  | PyStr v, PyStr k =>
      let tag := String.append k "|" in
      if String.prefix tag v then
        Return (PyStr (String.substring (String.length tag)
                         (String.length v - String.length tag) v))
      else if required then Raise (HTTPException 500 "Error decrypting header")
      else Return PyNone
  | _, _ =>
      if required then Raise (HTTPException 500 "Error decrypting header")
      else Return PyNone
  end.

Definition transient_prefix : string :=
  "x-object-transient-sysmeta-crypto-meta-".

(** [decrypt_user_metadata]: every non-empty header of the transient
    crypto-meta namespace is decrypted with [keys['object']] and moved
    to [X-Object-Meta-]. *)
Fixpoint user_metadata (headers : list header) (keys : dict)
    : outcome (list header) :=
  match headers with
  | [] => Return []
  | (name, val) :: rest =>
      if String.prefix transient_prefix (lower name) && truthy val then
        match keys !! "object" with
        | None => Raise (KeyError "object")
        | Some key =>
            match decrypt_header name val key true with
            | Raise e => Raise e
            | Return v =>
                match user_metadata rest keys with
                | Raise e => Raise e
                | Return more =>
                    let short_name :=
                      String.substring (String.length transient_prefix)
                        (String.length name) name in
                    Return ((String.append "X-Object-Meta-" short_name, v)
                            :: more)
                end
            end
        end
      else user_metadata rest keys
  end.

(** What varies from one example to the next. *)
Record world : Type := {
  w_sysmeta : dict;
  w_get_keys : option (list string) → pyval → outcome dict;
  w_headers : list header;
  w_split_path : outcome (list pyval);
  w_handle : handler_kind → outcome string;
}.

Definition swift (w : world) : Swift := {|
  config_true_value := true_value;
  get_object_info := λ _, {| sysmeta := w_sysmeta w |};
  get_container_update_override_key := override_key;
  split_path := λ _ _ _ _, w_split_path w;
  get_keys := λ _, w_get_keys w;
  _response_headers := w_headers w;
  _response_header_value := header_value (w_headers w);
  _decrypt_header := decrypt_header;
  decrypt_user_metadata := λ keys, user_metadata (w_headers w) (default ∅ keys);
  response := string;
  app := λ env, String.append "upstream:" (path env);
  handle := λ h _, w_handle w h;
  error_response := λ status body _, body;
|}.

(** *** Example data *)

Definition both_keys : dict :=
  {["object" := PyStr "ko"; "container" := PyStr "kc"]}.
Definition object_key_only : dict := {["object" := PyStr "ko"]}.
Definition container_key_only : dict := {["container" := PyStr "kc"]}.

Definition etag_name : string := "X-Object-Sysmeta-Crypto-Etag".
Definition override_name : string :=
  "X-Object-Sysmeta-Container-Update-Override-Etag".
Definition color_name : string :=
  "X-Object-Transient-Sysmeta-Crypto-Meta-Color".

(** The key service denies the full scope and grants the container
    scope, whatever the key id. *)
Definition container_scope_only (required : option (list string))
    (key_id : pyval) : outcome dict :=
  match required with
  | None => Raise (HTTPException 403 "Forbidden")
  | Some _ => Return container_key_only
  end.

Definition world_with (headers : list header) : world := {|
  w_sysmeta := {["crypto-etag" := PyStr "ko|abc"]};
  w_get_keys := container_scope_only;
  w_headers := headers;
  w_split_path := Return [PyStr "v1"; PyStr "a"; PyStr "c"; PyStr "o"];
  w_handle := λ _, Raise (HTTPForbidden "Invalid key");
|}.

(** A cyphered object whose two checksum copies agree, with one piece of
    encrypted user metadata. *)
Definition cyphered_object : world :=
  world_with [("Content-Length", PyStr "3");
              ("Etag", PyStr "md5-of-ciphertext");
              (etag_name, PyStr "ko|abc");
              (override_name, PyStr "kc|abc");
              (color_name, PyStr "ko|red")].

(** The two checksum copies disagree. *)
Definition mismatched_copies : world :=
  world_with [("Content-Length", PyStr "3");
              (etag_name, PyStr "ko|abc");
              (override_name, PyStr "kc|xyz")].

(** The object-scope copy decrypts to the empty string. *)
Definition empty_object_etag : world :=
  world_with [("Content-Length", PyStr "3");
              (etag_name, PyStr "ko|");
              (override_name, PyStr "kc|abc")].

(** The container-scope copy was not produced with the container key. *)
Definition undecryptable_override : world :=
  world_with [("Content-Length", PyStr "3");
              (etag_name, PyStr "ko|abc");
              (override_name, PyStr "garbage")].

(** Only the object-scope copy is there. *)
Definition object_copy_only : world :=
  world_with [("Content-Length", PyStr "3");
              (etag_name, PyStr "ko|abc")].

(** The encrypted user metadata was not produced with the object key. *)
Definition undecryptable_metadata : world :=
  world_with [("Content-Length", PyStr "3");
              (color_name, PyStr "garbage")].

(** An object that was never cyphered. *)
Definition plain_object : world := {|
  w_sysmeta := ∅;
  w_get_keys := container_scope_only;
  w_headers := [("Content-Length", PyStr "3"); ("Etag", PyStr "md5");
                ("X-Object-Meta-Color", PyStr "red")];
  w_split_path := Raise (ValueError "Invalid path: /info");
  w_handle := λ _, Return "handled";
|}.

Definition get_request : request :=
  {| method := "GET"; path := "/v1/a/c/o"; environ := ∅ |}.
Definition post_request : request :=
  {| method := "POST"; path := "/v1/a/c/o"; environ := ∅ |}.

(** The same object behind a key service that grants every scope. *)
Definition granted_object : world := {|
  w_sysmeta := {["crypto-etag" := PyStr "ko|abc"]};
  w_get_keys := λ _ _, Return both_keys;
  w_headers := w_headers cyphered_object;
  w_split_path := Return [PyStr "v1"; PyStr "a"; PyStr "c"; PyStr "o"];
  w_handle := λ _, Return "handled";
|}.

(** ... and behind a key service that is out of order. *)
Definition broken_key_service : world := {|
  w_sysmeta := {["crypto-etag" := PyStr "ko|abc"]};
  w_get_keys := λ _ _, Raise (OtherError "ConnectionTimeout");
  w_headers := w_headers cyphered_object;
  w_split_path := Return [PyStr "v1"; PyStr "a"; PyStr "c"; PyStr "o"];
  w_handle := λ _, Return "handled";
|}.

End Toy.

Section Properties.

Context `{Swift}.

(** ** Runs *)

Lemma bind_ret {A B} (a : A) (k : A → M B) : bind (ret a) k = k a.
Proof. unfold bind, ret. by destruct (k a). Qed.

Lemma is_read_method_spec m :
  is_read_method m = true ↔ m = "HEAD" ∨ m = "GET".
Proof.
  unfold is_read_method.
  rewrite orb_true_iff, !bool_decide_eq_true. reflexivity.
Qed.

Lemma py_in_spec (d : dict) k : py_in k d = true ↔ is_Some (d !! k).
Proof. unfold py_in. by rewrite bool_decide_eq_true, elem_of_dom. Qed.

Lemma py_in_false (d : dict) k : d !! k = None → py_in k d = false.
Proof.
  intros Hk. apply bool_decide_eq_false_2. by rewrite not_elem_of_dom.
Qed.

(** ** Key resolution *)

Section KeyResolver.

Variables (req : request) (crypto_meta : option dict).

Hypothesis no_override :
  config_true_value (dict_get (environ req) "swift.crypto.override") = false.

Lemma get_decryption_keys_not_cyphered :
  py_in "crypto-etag" (sysmeta (get_object_info (environ req))) = false →
  get_decryption_keys req crypto_meta = (Return None, []).
Proof.
  intros Hmark. unfold get_decryption_keys.
  rewrite no_override, Hmark. reflexivity.
Qed.

Hypothesis cyphered :
  py_in "crypto-etag" (sysmeta (get_object_info (environ req))) = true.

(** Once the object is known to be cyphered, the outcome is decided by
    the key fetches alone. *)
Lemma get_decryption_keys_fetch :
  get_decryption_keys req crypto_meta =
    let key_id := key_id_of crypto_meta in
    match get_keys (environ req) None key_id with
    | Return keys => (Return (Some keys), [CallGetKeys None key_id])
    | Raise e =>
        if is_HTTPException e then
          if is_read_method (method req) then
            (match get_keys (environ req) (Some ["container"]) key_id with
             | Return keys => Return (Some keys)
             | Raise e' => if is_HTTPException e' then Return None
                           else Raise e'
             end,
             [CallGetKeys None key_id;
              CallGetKeys (Some ["container"]) key_id])
          else (Raise e, [CallGetKeys None key_id])
        else (Raise e, [CallGetKeys None key_id])
    end.
Proof.
  unfold get_decryption_keys. rewrite no_override, cyphered. cbn.
  destruct (get_keys (environ req) None _) as [keys|e]; cbn; [done|].
  destruct (is_HTTPException e); [|done].
  destruct (is_read_method (method req)); cbn; [|done].
  destruct (get_keys (environ req) (Some ["container"]) _) as [keys|e'];
    cbn; [done|].
  by destruct (is_HTTPException e').
Qed.

End KeyResolver.

(** C5.  On a HEAD or GET, when the full-scope key fetch is denied (an
    [HTTPException]), [get_decryption_keys] fetches again with
    [['container']] and the same key id, and nothing else: a successful
    retry is returned as the key bundle, a denied retry gives [None]. *)
Theorem get_decryption_keys_read_fallback req crypto_meta e :
  config_true_value (dict_get (environ req) "swift.crypto.override") = false →
  is_Some (sysmeta (get_object_info (environ req)) !! "crypto-etag") →
  method req = "HEAD" ∨ method req = "GET" →
  get_keys (environ req) None (key_id_of crypto_meta) = Raise e →
  is_HTTPException e = true →
  let key_id := key_id_of crypto_meta in
  let retry := get_keys (environ req) (Some ["container"]) key_id in
  (get_decryption_keys req crypto_meta).2
    = [CallGetKeys None key_id; CallGetKeys (Some ["container"]) key_id]
  ∧ (∀ keys, retry = Return keys →
       (get_decryption_keys req crypto_meta).1 = Return (Some keys))
  ∧ (∀ e', retry = Raise e' → is_HTTPException e' = true →
       (get_decryption_keys req crypto_meta).1 = Return None).
Proof.
  intros Hov Hcy%py_in_spec Hread%is_read_method_spec Hfull Hdenied
         key_id retry.
  rewrite (get_decryption_keys_fetch _ _ Hov Hcy). cbn zeta.
  rewrite Hfull, Hdenied, Hread. cbn [fst snd].
  split; [reflexivity|]. subst retry key_id. split.
  - intros keys ->. reflexivity.
  - intros e' -> ->. reflexivity.
Qed.

(** C6.  On any other method a denied key fetch is raised again as it
    is: the run is the one full-scope fetch, with no second fetch, and
    ends in the very exception the fetch raised. *)
Theorem get_decryption_keys_denial_propagates req crypto_meta e :
  config_true_value (dict_get (environ req) "swift.crypto.override") = false →
  is_Some (sysmeta (get_object_info (environ req)) !! "crypto-etag") →
  method req ≠ "HEAD" → method req ≠ "GET" →
  get_keys (environ req) None (key_id_of crypto_meta) = Raise e →
  is_HTTPException e = true →
  get_decryption_keys req crypto_meta
    = (Raise e, [CallGetKeys None (key_id_of crypto_meta)]).
Proof.
  intros Hov Hcy%py_in_spec Hhead Hget Hfull Hdenied.
  rewrite (get_decryption_keys_fetch _ _ Hov Hcy). cbn zeta.
  rewrite Hfull, Hdenied. unfold is_read_method.
  rewrite !bool_decide_eq_false_2 by assumption. reflexivity.
Qed.

(** ** Header reconciliation *)

Lemma py_in_lookup (d : dict) k v : d !! k = Some v → py_in k d = true.
Proof.
  intros Hk. apply bool_decide_eq_true_2, elem_of_dom. by exists v.
Qed.

Lemma py_getitem_lookup (d : dict) k v :
  d !! k = Some v → py_getitem d k = ret v.
Proof. intros Hk. unfold py_getitem. by rewrite Hk. Qed.

Lemma dict_truthy_lookup (d : dict) k v :
  d !! k = Some v → dict_truthy (Some d) = true.
Proof.
  intros Hk. cbn. apply negb_true_iff, bool_decide_eq_false_2.
  intros ->. by rewrite lookup_empty in Hk.
Qed.

Lemma filter_all {A} (P : A → Prop) `{∀ x, Decision (P x)} (l : list A) :
  (∀ x, P x) → filter P l = l.
Proof.
  intros HP. induction l as [|x l IH]; [done|].
  rewrite filter_cons_True by apply HP. by rewrite IH.
Qed.

Lemma lower_names_nil : lower_names [] = ∅.
Proof. reflexivity. Qed.

Lemma remap_and_merge_no_keys post acc :
  dict_truthy post = false →
  remap_and_merge post acc
    = (Return (acc ++ filter (λ hv, lower hv.1 ∉ lower_names acc)
                             _response_headers), []).
Proof. intros Hp. unfold remap_and_merge. by rewrite Hp. Qed.

(** Both checksum copies present, both keys in the bundle, both
    decryptions returning: the block raises exactly when the object
    value is truthy and the two values differ. *)
Lemma decrypt_etag_headers_both (d : dict) ko kc vo vc acc :
  d !! "object" = Some ko → d !! "container" = Some kc →
  truthy (_response_header_value crypto_etag_header) = true →
  truthy (_response_header_value override_etag_header) = true →
  _decrypt_header crypto_etag_header
    (_response_header_value crypto_etag_header) ko true = Return vo →
  _decrypt_header override_etag_header
    (_response_header_value override_etag_header) kc false = Return vc →
  let calls :=
    [CallDecryptHeader crypto_etag_header
       (_response_header_value crypto_etag_header) ko true;
     CallDecryptHeader override_etag_header
       (_response_header_value override_etag_header) kc false] in
  decrypt_etag_headers d acc =
    if truthy vo && py_ne vc vo then
      (Raise (HTTPForbidden "Invalid key"),
       calls ++ [LogDebug "Failed ETag verification"])
    else
      (Return (acc ++ [("Etag", vo); (override_etag_header, vc);
                       ("ETag", vc)]), calls).
Proof.
  intros Ho Hc Heo Hec Hdo Hdc calls. subst calls.
  unfold decrypt_etag_headers.
  fold crypto_etag_header. fold override_etag_header.
  rewrite Heo, Hec, (py_in_lookup _ _ _ Ho), (py_in_lookup _ _ _ Hc).
  rewrite (py_getitem_lookup _ _ _ Ho), (py_getitem_lookup _ _ _ Hc).
  cbn. rewrite Hdo. cbn. rewrite Hdc. cbn.
  destruct (truthy vo && py_ne vc vo); cbn; [done|].
  by rewrite <- app_assoc.
Qed.

Lemma decrypt_resp_headers_stages put post :
  decrypt_resp_headers put post =
    let* mod_hdr_pairs := etag_stage put in
    try_except (remap_and_merge post mod_hdr_pairs) is_KeyError
      (λ _, log_debug "Not able to decrypt user metadata" ;;
            ret mod_hdr_pairs).
Proof. reflexivity. Qed.

(** A raise in the checksum block leaves [decrypt_resp_headers] at
    once: nothing after it runs. *)
Lemma decrypt_resp_headers_etag_raise put post e t :
  etag_stage put = (Raise e, t) →
  decrypt_resp_headers put post = (Raise e, t).
Proof.
  intros Hst. rewrite decrypt_resp_headers_stages, Hst. reflexivity.
Qed.

Lemma etag_stage_mismatch (d : dict) ko kc vo vc :
  d !! "object" = Some ko → d !! "container" = Some kc →
  truthy (_response_header_value crypto_etag_header) = true →
  truthy (_response_header_value override_etag_header) = true →
  _decrypt_header crypto_etag_header
    (_response_header_value crypto_etag_header) ko true = Return vo →
  _decrypt_header override_etag_header
    (_response_header_value override_etag_header) kc false = Return vc →
  truthy vo = true → vc ≠ vo →
  etag_stage (Some d) =
    (Raise (HTTPForbidden "Invalid key"),
     [CallDecryptHeader crypto_etag_header
        (_response_header_value crypto_etag_header) ko true;
      CallDecryptHeader override_etag_header
        (_response_header_value override_etag_header) kc false;
      LogDebug "Failed ETag verification"]).
Proof.
  intros Ho Hc Heo Hec Hdo Hdc Hvo Hne.
  unfold etag_stage. rewrite (dict_truthy_lookup _ _ _ Ho).
  change (default ∅ (Some d)) with d.
  rewrite (decrypt_etag_headers_both _ _ _ _ _ _ Ho Hc Heo Hec Hdo Hdc).
  unfold py_ne. rewrite Hvo, bool_decide_eq_false_2 by assumption.
  reflexivity.
Qed.

(** C1, amended.  With both encrypted checksum copies present (a
    non-empty header value each) and both keys in the bundle, if the
    object-scope copy decrypts to a value that is not empty and the
    container-scope copy decrypts to a different value, then
    [decrypt_resp_headers] logs the failed verification and raises
    [HTTPForbidden('Invalid key')]; it returns no header list. *)
Theorem etag_mismatch_is_forbidden (d : dict) post ko kc vo vc :
  d !! "object" = Some ko → d !! "container" = Some kc →
  truthy (_response_header_value crypto_etag_header) = true →
  truthy (_response_header_value override_etag_header) = true →
  _decrypt_header crypto_etag_header
    (_response_header_value crypto_etag_header) ko true = Return vo →
  _decrypt_header override_etag_header
    (_response_header_value override_etag_header) kc false = Return vc →
  truthy vo = true → vc ≠ vo →
  decrypt_resp_headers (Some d) post =
    (Raise (HTTPForbidden "Invalid key"),
     [CallDecryptHeader crypto_etag_header
        (_response_header_value crypto_etag_header) ko true;
      CallDecryptHeader override_etag_header
        (_response_header_value override_etag_header) kc false;
      LogDebug "Failed ETag verification"]).
Proof.
  intros Ho Hc Heo Hec Hdo Hdc Hvo Hne.
  apply decrypt_resp_headers_etag_raise.
  by apply etag_stage_mismatch with (vo := vo) (vc := vc).
Qed.

(** C10.  When the object-scope checksum decrypts to a non-empty value
    and the optional decryption of the container-scope copy, which is
    present, yields no value ([None]), [decrypt_resp_headers] raises
    [HTTPForbidden('Invalid key')]: the missing value counts as a
    mismatch. *)
Theorem absent_override_etag_is_forbidden (d : dict) post ko kc vo :
  d !! "object" = Some ko → d !! "container" = Some kc →
  truthy (_response_header_value crypto_etag_header) = true →
  truthy (_response_header_value override_etag_header) = true →
  _decrypt_header crypto_etag_header
    (_response_header_value crypto_etag_header) ko true = Return vo →
  truthy vo = true →
  _decrypt_header override_etag_header
    (_response_header_value override_etag_header) kc false = Return PyNone →
  (decrypt_resp_headers (Some d) post).1 = Raise (HTTPForbidden "Invalid key")
  ∧ LogDebug "Failed ETag verification" ∈ (decrypt_resp_headers (Some d) post).2.
Proof.
  intros Ho Hc Heo Hec Hdo Hvo Hdc.
  assert (PyNone ≠ vo) as Hne by (intros <-; discriminate Hvo).
  rewrite (decrypt_resp_headers_etag_raise _ post _ _
             (etag_stage_mismatch _ _ _ _ _ Ho Hc Heo Hec Hdo Hdc Hvo Hne)).
  split; [reflexivity|]. cbn. set_solver.
Qed.

(** C7.  On an object whose sysmeta has no [crypto-etag] entry, with no
    override flag, [get_decryption_keys] returns [None] without calling
    the key service; and with key bundles that are [None] or empty the
    header list returned is the raw response header list, in order. *)
Theorem not_cyphered_is_untouched req crypto_meta put post :
  config_true_value (dict_get (environ req) "swift.crypto.override") = false →
  sysmeta (get_object_info (environ req)) !! "crypto-etag" = None →
  dict_truthy put = false → dict_truthy post = false →
  get_decryption_keys req crypto_meta = (Return None, [])
  ∧ decrypt_resp_headers None None = (Return _response_headers, [])
  ∧ decrypt_resp_headers put post = (Return _response_headers, []).
Proof.
  intros Hov Hmark%py_in_false Hput Hpost.
  split; [by apply get_decryption_keys_not_cyphered|].
  assert (∀ a b, dict_truthy a = false → dict_truthy b = false →
            decrypt_resp_headers a b = (Return _response_headers, [])) as Hgen.
  { intros a b Ha Hb. rewrite decrypt_resp_headers_stages.
    unfold etag_stage. rewrite Ha. unfold bind, ret.
    rewrite (remap_and_merge_no_keys _ _ Hb), filter_all; [reflexivity|].
    intros hv. rewrite lower_names_nil. set_solver. }
  split; [by apply Hgen | by apply Hgen].
Qed.

(** What [decrypt_resp_headers] does once the checksum block has
    returned [pairs]. *)
Lemma decrypt_resp_headers_after_etags put post pairs t :
  etag_stage put = (Return pairs, t) →
  decrypt_resp_headers put post =
    if dict_truthy post then
      match decrypt_user_metadata post with
      | Return meta =>
          (Return ((pairs ++ meta)
                   ++ filter (λ hv, lower hv.1 ∉ lower_names (pairs ++ meta))
                             _response_headers),
           t ++ [CallDecryptUserMetadata post])
      | Raise e =>
          if is_KeyError e then
            (Return pairs,
             t ++ [CallDecryptUserMetadata post;
                   LogDebug "Not able to decrypt user metadata"])
          else
            (Raise e, t ++ [CallDecryptUserMetadata post])
      end
    else
      (Return (pairs ++ filter (λ hv, lower hv.1 ∉ lower_names pairs)
                               _response_headers), t).
Proof.
  intros Hst. rewrite decrypt_resp_headers_stages, Hst.
  unfold remap_and_merge. destruct (dict_truthy post); cbn.
  - destruct (decrypt_user_metadata post) as [meta|e]; cbn; [done|].
    by destruct (is_KeyError e).
  - by rewrite app_nil_r.
Qed.

Lemma staged_pairs_after_etags put post pairs t :
  etag_stage put = (Return pairs, t) →
  (staged_pairs put post).1 =
    if dict_truthy post then
      match decrypt_user_metadata post with
      | Return meta => Return (pairs ++ meta)
      | Raise e => if is_KeyError e then Return pairs else Raise e
      end
    else Return pairs.
Proof.
  intros Hst. unfold staged_pairs. rewrite Hst.
  destruct (dict_truthy post); cbn; [|done].
  destruct (decrypt_user_metadata post) as [meta|e]; cbn; [done|].
  by destruct (is_KeyError e).
Qed.

(** The filter of line 113 lets through only names that no staged
    header has. *)
Lemma passthrough_not_staged (staged : list header) hv hv' :
  hv ∈ filter (λ hv, lower hv.1 ∉ lower_names staged) _response_headers →
  hv' ∈ staged →
  lower hv.1 ≠ lower hv'.1.
Proof.
  intros [Hnot _]%list_elem_of_filter Hst Heq. apply Hnot.
  unfold lower_names. rewrite elem_of_list_to_set, Heq.
  by apply (list_elem_of_fmap_2 (λ hv, lower hv.1)).
Qed.

(** C2, amended.  Whenever [decrypt_resp_headers] returns, the list is
    the staged headers (checksum entries, then decrypted metadata)
    followed by raw response headers in their order, and every raw
    header taken over has a name that differs, up to case, from the name
    of every staged header: a raw header whose name collides with a
    staged one is never appended.  (Staged headers are not compared with
    each other, nor raw headers with each other.) *)
Theorem passthrough_distinct_from_staged put post l :
  (decrypt_resp_headers put post).1 = Return l →
  ∃ staged passed,
    (staged_pairs put post).1 = Return staged
    ∧ l = staged ++ passed
    ∧ passed `sublist_of` _response_headers
    ∧ ∀ hv hv', hv ∈ passed → hv' ∈ staged → lower hv.1 ≠ lower hv'.1.
Proof.
  destruct (etag_stage put) as [[pairs|e] t] eqn:Hst.
  2:{ rewrite (decrypt_resp_headers_etag_raise _ _ _ _ Hst). discriminate. }
  rewrite (decrypt_resp_headers_after_etags _ post _ _ Hst).
  rewrite (staged_pairs_after_etags _ post _ _ Hst).
  destruct (dict_truthy post).
  - destruct (decrypt_user_metadata post) as [meta|e].
    + intros [= <-]. eexists _, _. split; [reflexivity|].
      split; [reflexivity|]. split; [apply sublist_filter; apply _|].
      intros hv hv'. apply passthrough_not_staged.
    + destruct (is_KeyError e); [|discriminate].
      intros [= <-]. exists pairs, []. split; [reflexivity|].
      split; [by rewrite app_nil_r|]. split; [apply sublist_nil_l|].
      intros hv hv' Hhv. by apply elem_of_nil in Hhv.
  - intros [= <-]. eexists _, _. split; [reflexivity|].
    split; [reflexivity|]. split; [apply sublist_filter; apply _|].
    intros hv hv'. apply passthrough_not_staged.
Qed.

Lemma etag_stage_object (d : dict) k :
  d !! "object" = Some k →
  truthy (_response_header_value crypto_etag_header) = true →
  let enc := _response_header_value crypto_etag_header in
  let ev := CallDecryptHeader crypto_etag_header enc k true in
  match _decrypt_header crypto_etag_header enc k true with
  | Raise e => etag_stage (Some d) = (Raise e, [ev])
  | Return v =>
      ∃ r t, etag_stage (Some d) = (r, ev :: t)
             ∧ ∀ l, r = Return l → ∃ rest, l = ("Etag", v) :: rest
  end.
Proof.
  intros Ho Heo enc ev. subst enc ev.
  unfold etag_stage. rewrite (dict_truthy_lookup _ _ _ Ho).
  change (default ∅ (Some d)) with d.
  unfold decrypt_etag_headers. fold crypto_etag_header override_etag_header.
  rewrite Heo, (py_in_lookup _ _ _ Ho), (py_getitem_lookup _ _ _ Ho). cbn.
  destruct (_decrypt_header crypto_etag_header _ k true) as [v|e]; cbn; [|done].
  destruct (truthy (_response_header_value override_etag_header)
            && py_in "container" d); cbn.
  2:{ eexists _, _. split; [reflexivity|]. intros l [= <-]. by eexists. }
  unfold py_getitem. destruct (d !! "container") as [kc|]; cbn.
  2:{ eexists _, _. split; [reflexivity|]. discriminate. }
  destruct (_decrypt_header override_etag_header _ kc false) as [vc|e]; cbn.
  2:{ eexists _, _. split; [reflexivity|]. discriminate. }
  destruct (truthy v && py_ne vc v); cbn.
  - eexists _, _. split; [reflexivity|]. discriminate.
  - eexists _, _. split; [reflexivity|]. intros l [= <-]. by eexists.
Qed.

(** After a successful object-scope decryption the checksum block
    stages exactly [Etag] with the object-scope value, followed, when the
    container-scope step runs and returns, by the override name and
    [ETag] with the container-scope value. *)
Lemma etag_stage_after_object (d : dict) k v pairs t :
  d !! "object" = Some k →
  truthy (_response_header_value crypto_etag_header) = true →
  _decrypt_header crypto_etag_header
    (_response_header_value crypto_etag_header) k true = Return v →
  etag_stage (Some d) = (Return pairs, t) →
  (truthy (_response_header_value override_etag_header)
     && py_in "container" d = false
   ∧ pairs = [("Etag", v)])
  ∨ (∃ kc vc,
       d !! "container" = Some kc
       ∧ truthy (_response_header_value override_etag_header) = true
       ∧ _decrypt_header override_etag_header
           (_response_header_value override_etag_header) kc false
         = Return vc
       ∧ pairs = [("Etag", v); (override_etag_header, vc); ("ETag", vc)]).
Proof.
  intros Ho Heo Hdo. unfold etag_stage.
  rewrite (dict_truthy_lookup _ _ _ Ho).
  change (default ∅ (Some d)) with d.
  unfold decrypt_etag_headers. fold crypto_etag_header override_etag_header.
  rewrite Heo, (py_in_lookup _ _ _ Ho), (py_getitem_lookup _ _ _ Ho). cbn.
  rewrite Hdo. cbn.
  destruct (truthy (_response_header_value override_etag_header)) eqn:Hec;
    cbn [andb].
  2:{ cbn. intros [= <- _]. by left. }
  destruct (py_in "container" d) eqn:Hin; cbn.
  2:{ intros [= <- _]. by left. }
  apply py_in_spec in Hin as [kc Hc].
  rewrite (py_getitem_lookup _ _ _ Hc). cbn.
  destruct (_decrypt_header override_etag_header _ kc false) as [vc|e]
    eqn:Hdc; cbn; [|discriminate].
  destruct (truthy v && py_ne vc v); cbn; [discriminate|].
  intros [= <- _]. right. by exists kc, vc.
Qed.

(** C3, amended.  When the bundle has an object-scope key and the
    object-scope encrypted checksum header is present, the first thing
    [decrypt_resp_headers] does is to decrypt it with [required=True]; a
    failure of that decryption is raised as it is, and on success the
    decrypted value is staged under the client-visible name [Etag], as
    the first header of any list returned, and nowhere else.  The
    override name is staged by the container-scope step only, with the
    container-scope value: when that step does not run (its header is
    absent or empty, or the bundle has no container key), everything
    after [Etag] is decrypted user metadata or a raw response header;
    when it runs and returns, the two entries after [Etag] are the
    override name and [ETag], both with the container-scope value, and
    everything after them is decrypted user metadata or a raw response
    header. *)
Theorem object_etag_is_staged_as_Etag (d : dict) post k :
  d !! "object" = Some k →
  truthy (_response_header_value crypto_etag_header) = true →
  let enc := _response_header_value crypto_etag_header in
  let ev := CallDecryptHeader crypto_etag_header enc k true in
  (∃ t, (decrypt_resp_headers (Some d) post).2 = ev :: t)
  ∧ match _decrypt_header crypto_etag_header enc k true with
    | Raise e => decrypt_resp_headers (Some d) post = (Raise e, [ev])
    | Return v =>
        ∀ l, (decrypt_resp_headers (Some d) post).1 = Return l →
             ∃ rest, l = ("Etag", v) :: rest
    end
  ∧ (∀ v l,
       _decrypt_header crypto_etag_header enc k true = Return v →
       (decrypt_resp_headers (Some d) post).1 = Return l →
       ∃ rest,
         (∀ hv, hv ∈ rest →
            hv ∈ _response_headers
            ∨ (dict_truthy post = true
               ∧ ∃ meta, decrypt_user_metadata post = Return meta
                         ∧ hv ∈ meta))
         ∧ ((truthy (_response_header_value override_etag_header)
               && py_in "container" d = false
             ∧ l = ("Etag", v) :: rest)
            ∨ (∃ kc vc,
                 d !! "container" = Some kc
                 ∧ truthy (_response_header_value override_etag_header)
                   = true
                 ∧ _decrypt_header override_etag_header
                     (_response_header_value override_etag_header) kc false
                   = Return vc
                 ∧ l = ("Etag", v) :: (override_etag_header, vc)
                       :: ("ETag", vc) :: rest))).
Proof.
  intros Ho Heo enc ev. subst enc ev.
  pose proof (etag_stage_object _ _ Ho Heo) as Hobj. cbn zeta in Hobj.
  apply and_assoc. split.
  - destruct (_decrypt_header crypto_etag_header _ k true) as [v|e].
    + destruct Hobj as (r & t & Hst & Hhead). destruct r as [pairs|e].
      * destruct (Hhead pairs eq_refl) as [rest ->].
        rewrite (decrypt_resp_headers_after_etags _ post _ _ Hst).
        destruct (dict_truthy post);
          [destruct (decrypt_user_metadata post) as [meta|e];
           [|destruct (is_KeyError e)]|];
          (split; [by eexists|]); cbn [fst];
          try discriminate; intros l [= <-]; by eexists.
      * rewrite (decrypt_resp_headers_etag_raise _ post _ _ Hst).
        split; [by eexists|]. discriminate.
    + rewrite (decrypt_resp_headers_etag_raise _ post _ _ Hobj).
      split; [by eexists|]. reflexivity.
  - clear Hobj. intros v l Hdo Hl.
    destruct (etag_stage (Some d)) as [[pairs|e] t] eqn:Hst.
    2:{ rewrite (decrypt_resp_headers_etag_raise _ post _ _ Hst) in Hl.
        discriminate Hl. }
    rewrite (decrypt_resp_headers_after_etags _ post _ _ Hst) in Hl.
    assert (∃ rest,
              l = pairs ++ rest
              ∧ ∀ hv, hv ∈ rest →
                  hv ∈ _response_headers
                  ∨ (dict_truthy post = true
                     ∧ ∃ meta, decrypt_user_metadata post = Return meta
                               ∧ hv ∈ meta)) as (rest & -> & Hrest).
    { destruct (dict_truthy post) eqn:Hpost.
      - destruct (decrypt_user_metadata post) as [meta|e] eqn:Hmeta.
        + injection Hl as <-. eexists. rewrite <- app_assoc.
          split; [reflexivity|].
          intros hv [Hin|Hin]%elem_of_app.
          * right. split; [done|]. by exists meta.
          * left. by apply list_elem_of_filter in Hin as [_ ?].
        + destruct (is_KeyError e); [|discriminate Hl].
          injection Hl as <-. exists []. rewrite app_nil_r.
          split; [done|]. by intros hv ?%elem_of_nil.
      - injection Hl as <-. eexists. split; [reflexivity|].
        intros hv Hin. left. by apply list_elem_of_filter in Hin as [_ ?]. }
    exists rest. split; [done|].
    destruct (etag_stage_after_object _ _ _ _ _ Ho Heo Hdo Hst)
      as [[Hskip ->]|(kc & vc & Hc & Hec & Hdc & ->)].
    + by left.
    + right. by exists kc, vc.
Qed.

(** C4, amended.  When the remap of encrypted user metadata raises a
    [KeyError], the step is abandoned: the failure is logged at debug
    level and not raised, [decrypt_resp_headers] returns, and the list it
    returns starts with the staged checksum headers and holds no
    decrypted metadata (every entry is a staged checksum header or a raw
    response header). *)
Theorem metadata_key_error_is_logged put post pairs t e :
  etag_stage put = (Return pairs, t) →
  dict_truthy post = true →
  decrypt_user_metadata post = Raise e →
  is_KeyError e = true →
  ∃ l, decrypt_resp_headers put post =
         (Return l, t ++ [CallDecryptUserMetadata post;
                          LogDebug "Not able to decrypt user metadata"])
       ∧ pairs `prefix_of` l
       ∧ ∀ hv, hv ∈ l → hv ∈ pairs ∨ hv ∈ _response_headers.
Proof.
  intros Hst Hpost Hmeta Hkey.
  rewrite (decrypt_resp_headers_after_etags _ post _ _ Hst).
  rewrite Hpost, Hmeta, Hkey. exists pairs.
  split; [reflexivity|]. split; [reflexivity|]. by left.
Qed.

(** C8, amended.  In the remap-and-merge step only [KeyError] is caught:
    once the checksum block has returned, [decrypt_resp_headers] raises
    an exception exactly when the remap was run, raised it, and it is
    not a [KeyError]. *)
Theorem only_key_error_is_swallowed put post pairs t e :
  etag_stage put = (Return pairs, t) →
  (decrypt_resp_headers put post).1 = Raise e
  ↔ dict_truthy post = true
    ∧ decrypt_user_metadata post = Raise e
    ∧ is_KeyError e = false.
Proof.
  intros Hst. rewrite (decrypt_resp_headers_after_etags _ post _ _ Hst).
  destruct (dict_truthy post).
  - destruct (decrypt_user_metadata post) as [meta|e'].
    + split; [discriminate|]. by intros (_ & ? & _).
    + destruct (is_KeyError e') eqn:Hkey; cbn [fst].
      * split; [discriminate|]. intros (_ & [= ->] & Hno). congruence.
      * split; [by intros [= ->]|]. by intros (_ & [= ->] & _).
  - split; [discriminate|]. by intros (? & _).
Qed.

(** ** Dispatch *)

(** C9.  The dispatcher follows the routing table: a path that fails
    the lenient 3-or-4 segment parse ([ValueError]) goes to the next
    application with the same environment; otherwise an object segment
    with HEAD or GET goes to the object handler, a container segment
    without object segment with GET goes to the container handler, and
    everything else goes to the next application. *)
Theorem dispatcher_follows_routing env :
  (∀ e, split_path (path env) 3 4 true = Raise e → is_ValueError e = true →
        Decrypter_call env = follow_route (spec_route None (method env)) env
        ∧ follow_route (spec_route None (method env)) env
          = (Return (app env), [CallApp]))
  ∧ (∀ parts container object,
        split_path (path env) 3 4 true = Return parts →
        parts !! 2 = Some container → parts !! 3 = Some object →
        Decrypter_call env
        = follow_route (spec_route (Some (container, object)) (method env))
                       env)
  ∧ (∀ r, ∃ t, (follow_route r env).2
               = match r with
                 | PassThrough => CallApp
                 | ToObjectHandler => CallHandle ObjContext
                 | ToContainerHandler => CallHandle ContContext
                 end :: t).
Proof.
  split; [|split].
  - intros e Hparse Hval. unfold Decrypter_call. rewrite Hparse, Hval.
    split; reflexivity.
  - intros parts c o Hparse Hc Ho. unfold Decrypter_call, py_index.
    rewrite Hparse, Ho, Hc, !bind_ret.
    unfold spec_route, segment_present, is_read_method.
    destruct (truthy o), (truthy c),
      (bool_decide (method env = "HEAD")),
      (bool_decide (method env = "GET")); reflexivity.
  - intros r. unfold follow_route, run_handler, call, try_except.
    destruct r; [by eexists| |];
      destruct (handle _ env) as [resp|[]]; cbn; by eexists.
Qed.

(** ** More on key resolution *)

(** X1.  The key service is asked at most twice, always with the key id of
    [crypto_meta]: first with the default scopes, and a second time,
    with [['container']], only on HEAD or GET.  The only line logged is
    the one about the override.  (The trace holds key-service calls and
    log lines; the object-info lookup of line 37 is not part of it.) *)
Theorem get_decryption_keys_trace_shape req crypto_meta :
  let key_id := key_id_of crypto_meta in
  let t := (get_decryption_keys req crypto_meta).2 in
  t = []
  ∨ t = [LogDebug "No decryption is necessary because of override"]
  ∨ t = [CallGetKeys None key_id]
  ∨ (is_read_method (method req) = true
     ∧ t = [CallGetKeys None key_id; CallGetKeys (Some ["container"]) key_id]).
Proof.
  intros key_id t. subst key_id t. unfold get_decryption_keys.
  destruct (config_true_value _); [by right; left|].
  destruct (py_in _ _); cbn; [|by left].
  destruct (get_keys _ None _) as [keys|e]; cbn; [by right; right; left|].
  destruct (is_HTTPException e); [|by right; right; left].
  destruct (is_read_method _); cbn; [|by right; right; left].
  right; right; right. split; [done|].
  destruct (get_keys _ (Some _) _) as [keys|e']; cbn; [done|].
  by destruct (is_HTTPException e').
Qed.

(** X2.  On HEAD and GET no [HTTPException] ever leaves
    [get_decryption_keys], whatever the key service answers. *)
Theorem read_request_never_denied req crypto_meta status body :
  method req = "HEAD" ∨ method req = "GET" →
  (get_decryption_keys req crypto_meta).1 ≠ Raise (HTTPException status body).
Proof.
  intros Hread%is_read_method_spec. unfold get_decryption_keys.
  destruct (config_true_value _); [discriminate|].
  destruct (py_in _ _); cbn; [|discriminate].
  destruct (get_keys _ None _) as [keys|e]; cbn; [discriminate|].
  destruct (is_HTTPException e) eqn:He; cbn.
  - rewrite Hread.
    destruct (get_keys _ (Some _) _) as [keys|e']; cbn; [discriminate|].
    destruct (is_HTTPException e') eqn:He'; cbn; [discriminate|].
    intros [= ->]. discriminate He'.
  - intros [= ->]. discriminate He.
Qed.

(** X3.  The fallback is for access denials only.  On a cyphered object, when
    the full-scope fetch returns, or raises something that is not an
    [HTTPException], that outcome is the outcome of
    [get_decryption_keys], on every method, and there is no second
    fetch. *)
Theorem key_fetch_outcome_without_denial req crypto_meta :
  config_true_value (dict_get (environ req) "swift.crypto.override") = false →
  is_Some (sysmeta (get_object_info (environ req)) !! "crypto-etag") →
  let key_id := key_id_of crypto_meta in
  (∀ keys, get_keys (environ req) None key_id = Return keys →
     get_decryption_keys req crypto_meta
     = (Return (Some keys), [CallGetKeys None key_id]))
  ∧ (∀ e, get_keys (environ req) None key_id = Raise e →
       is_HTTPException e = false →
       get_decryption_keys req crypto_meta
       = (Raise e, [CallGetKeys None key_id])).
Proof.
  intros Hov Hcy%py_in_spec key_id. subst key_id.
  rewrite (get_decryption_keys_fetch _ _ Hov Hcy). cbn zeta. split.
  - intros keys ->. reflexivity.
  - intros e -> ->. reflexivity.
Qed.

(** X4.  A bundle returned by [get_decryption_keys] is one the key service
    returned: for the full scope, or, after a denial on HEAD or GET, for
    the container scope. *)
Theorem returned_bundle_origin req crypto_meta keys :
  (get_decryption_keys req crypto_meta).1 = Return (Some keys) →
  let key_id := key_id_of crypto_meta in
  get_keys (environ req) None key_id = Return keys
  ∨ (is_read_method (method req) = true
     ∧ (∃ e, get_keys (environ req) None key_id = Raise e
             ∧ is_HTTPException e = true)
     ∧ get_keys (environ req) (Some ["container"]) key_id = Return keys).
Proof.
  unfold get_decryption_keys.
  destruct (config_true_value _); [discriminate|].
  destruct (py_in _ _); cbn; [|discriminate].
  destruct (get_keys _ None _) as [keys'|e] eqn:Hfull; cbn.
  { intros [= ->]. by left. }
  destruct (is_HTTPException e) eqn:He; cbn; [|discriminate].
  destruct (is_read_method _) eqn:Hread; cbn; [|discriminate].
  destruct (get_keys _ (Some _) _) as [keys'|e'] eqn:Hretry; cbn.
  - intros [= ->]. right. split; [done|]. split; [by exists e|done].
  - by destruct (is_HTTPException e').
Qed.

(** X5.  The key id handed to the key service is the [key_id] entry of
    [crypto_meta], and [None] when there is no [crypto_meta] or no such
    entry; the emptiness test of line 42 changes nothing. *)
Theorem key_id_of_lookup crypto_meta :
  key_id_of crypto_meta
  = match crypto_meta with
    | Some cm => default PyNone (cm !! "key_id")
    | None => PyNone
    end.
Proof.
  destruct crypto_meta as [cm|]; [|reflexivity].
  unfold key_id_of, dict_truthy, dict_get.
  destruct (bool_decide (cm = ∅)) eqn:Hempty; cbn; [|reflexivity].
  apply bool_decide_eq_true in Hempty. subst cm.
  by rewrite lookup_empty.
Qed.

(** ** More on header reconciliation *)

(** What a returned checksum block means for the whole function. *)
Lemma after_etags_summary put post pairs t :
  etag_stage put = (Return pairs, t) →
  (∀ l, (decrypt_resp_headers put post).1 = Return l → pairs `prefix_of` l)
  ∧ (∀ e, (decrypt_resp_headers put post).1 = Raise e →
          decrypt_user_metadata post = Raise e)
  ∧ (∀ ev, ev ∈ (decrypt_resp_headers put post).2 →
           ev ∈ t
           ∨ (dict_truthy post = true
              ∧ (ev = CallDecryptUserMetadata post
                 ∨ ev = LogDebug "Not able to decrypt user metadata"))).
Proof.
  intros Hst. rewrite (decrypt_resp_headers_after_etags _ post _ _ Hst).
  destruct (dict_truthy post);
    [destruct (decrypt_user_metadata post) as [meta|e'];
     [|destruct (is_KeyError e')]|]; cbn [fst snd].
  all: split; [intros l Hl; try discriminate Hl; injection Hl as <-;
               try (rewrite <- app_assoc); try reflexivity;
               by apply prefix_app_r|].
  all: split; [intros e He; try discriminate He; by injection He as <-|].
  all: intros ev; rewrite ?elem_of_app, ?elem_of_cons, ?elem_of_nil; tauto.
Qed.

Lemma py_ne_refl v : py_ne v v = false.
Proof. unfold py_ne. by rewrite bool_decide_eq_true_2. Qed.

(** The container-scope decryption alone: the object-scope one is
    skipped because its header or its key is missing. *)
Lemma decrypt_etag_headers_container_only (d : dict) kc vc acc :
  truthy (_response_header_value crypto_etag_header) && py_in "object" d
    = false →
  d !! "container" = Some kc →
  truthy (_response_header_value override_etag_header) = true →
  _decrypt_header override_etag_header
    (_response_header_value override_etag_header) kc false = Return vc →
  decrypt_etag_headers d acc =
    (Return (acc ++ [(override_etag_header, vc); ("ETag", vc)]),
     [CallDecryptHeader override_etag_header
        (_response_header_value override_etag_header) kc false]).
Proof.
  intros Hskip Hc Hec Hdc. unfold decrypt_etag_headers.
  fold crypto_etag_header override_etag_header.
  rewrite Hskip, Hec, (py_in_lookup _ _ _ Hc), (py_getitem_lookup _ _ _ Hc).
  cbn. rewrite Hdc. reflexivity.
Qed.

Lemma etag_stage_container_only (d : dict) kc vc :
  truthy (_response_header_value crypto_etag_header) && py_in "object" d
    = false →
  d !! "container" = Some kc →
  truthy (_response_header_value override_etag_header) = true →
  _decrypt_header override_etag_header
    (_response_header_value override_etag_header) kc false = Return vc →
  etag_stage (Some d)
  = (Return [(override_etag_header, vc); ("ETag", vc)],
     [CallDecryptHeader override_etag_header
        (_response_header_value override_etag_header) kc false]).
Proof.
  intros Hskip Hc Hec Hdc.
  unfold etag_stage. rewrite (dict_truthy_lookup _ _ _ Hc).
  change (default ∅ (Some d)) with d.
  by rewrite (decrypt_etag_headers_container_only _ _ _ _ Hskip Hc Hec Hdc).
Qed.

(** Neither decryption runs. *)
Lemma decrypt_etag_headers_skip (d : dict) acc :
  truthy (_response_header_value crypto_etag_header) && py_in "object" d
    = false →
  truthy (_response_header_value override_etag_header)
    && py_in "container" d = false →
  decrypt_etag_headers d acc = (Return acc, []).
Proof.
  intros Ho Hc. unfold decrypt_etag_headers.
  fold crypto_etag_header override_etag_header.
  rewrite Ho, Hc. reflexivity.
Qed.

(** X6.  When both copies decrypt to the same value, that value is staged
    three times, as [Etag], under the override name and as [ETag], at the
    head of any list returned; and the only exception that can leave
    [decrypt_resp_headers] is one raised by the metadata remap. *)
Theorem matching_etags_are_staged (d : dict) post ko kc v :
  d !! "object" = Some ko → d !! "container" = Some kc →
  truthy (_response_header_value crypto_etag_header) = true →
  truthy (_response_header_value override_etag_header) = true →
  _decrypt_header crypto_etag_header
    (_response_header_value crypto_etag_header) ko true = Return v →
  _decrypt_header override_etag_header
    (_response_header_value override_etag_header) kc false = Return v →
  (∀ l, (decrypt_resp_headers (Some d) post).1 = Return l →
        [("Etag", v); (override_etag_header, v); ("ETag", v)] `prefix_of` l)
  ∧ (∀ e, (decrypt_resp_headers (Some d) post).1 = Raise e →
          decrypt_user_metadata post = Raise e).
Proof.
  intros Ho Hc Heo Hec Hdo Hdc.
  assert (etag_stage (Some d)
          = (Return [("Etag", v); (override_etag_header, v); ("ETag", v)],
             [CallDecryptHeader crypto_etag_header
                (_response_header_value crypto_etag_header) ko true;
              CallDecryptHeader override_etag_header
                (_response_header_value override_etag_header) kc false]))
    as Hst.
  { unfold etag_stage. rewrite (dict_truthy_lookup _ _ _ Ho).
    change (default ∅ (Some d)) with d.
    rewrite (decrypt_etag_headers_both _ _ _ _ _ _ Ho Hc Heo Hec Hdo Hdc).
    by rewrite py_ne_refl, andb_false_r. }
  destruct (after_etags_summary _ post _ _ Hst) as (Hpre & Hexn & _).
  by split.
Qed.

(** X7.  With a bundle that has no object-scope key (the container-only
    bundle of the read fallback), or without the object-scope header, the
    container-scope copy is decrypted without [required] and without any
    comparison: its value is staged under the override name and as
    [ETag], the object-scope header is never decrypted, and the only
    exception that can leave is one raised by the metadata remap. *)
Theorem container_copy_alone_is_staged (d : dict) post kc vc :
  truthy (_response_header_value crypto_etag_header) && py_in "object" d
    = false →
  d !! "container" = Some kc →
  truthy (_response_header_value override_etag_header) = true →
  _decrypt_header override_etag_header
    (_response_header_value override_etag_header) kc false = Return vc →
  (∀ l, (decrypt_resp_headers (Some d) post).1 = Return l →
        [(override_etag_header, vc); ("ETag", vc)] `prefix_of` l)
  ∧ (∀ e, (decrypt_resp_headers (Some d) post).1 = Raise e →
          decrypt_user_metadata post = Raise e)
  ∧ (∀ name value key required,
       CallDecryptHeader name value key required
         ∈ (decrypt_resp_headers (Some d) post).2 →
       required = false).
Proof.
  intros Hskip Hc Hec Hdc.
  pose proof (etag_stage_container_only _ _ _ Hskip Hc Hec Hdc) as Hst.
  destruct (after_etags_summary _ post _ _ Hst) as (Hpre & Hexn & Hev).
  split; [done|]. split; [done|].
  intros name value key required [Hin|[_ [Hin|Hin]]]%Hev;
    try discriminate Hin.
  apply list_elem_of_singleton in Hin. by injection Hin.
Qed.

(** X8.  Each decryption needs its header and its key.  When, for the object
    scope and for the container scope alike, the header is absent or
    empty or the bundle lacks the key, the bundle plays no part:
    [decrypt_resp_headers] behaves as with no [put_keys] at all. *)
Theorem unusable_put_keys_are_ignored put post :
  truthy (_response_header_value crypto_etag_header)
    && py_in "object" (default ∅ put) = false →
  truthy (_response_header_value override_etag_header)
    && py_in "container" (default ∅ put) = false →
  decrypt_resp_headers put post = decrypt_resp_headers None post.
Proof.
  intros Ho Hc. rewrite !decrypt_resp_headers_stages.
  assert (etag_stage put = etag_stage None) as ->; [|reflexivity].
  unfold etag_stage. destruct (dict_truthy put); [|reflexivity].
  by rewrite (decrypt_etag_headers_skip _ _ Ho Hc).
Qed.

(** X14.  As the code stands, a [KeyError] in the remap ends the function with
    the staged checksum headers alone: the merge of lines 111-113 sits in
    the same [try], so not one raw response header is appended. *)
Theorem key_error_returns_checksum_headers_only put post pairs t e :
  etag_stage put = (Return pairs, t) →
  dict_truthy post = true →
  decrypt_user_metadata post = Raise e →
  is_KeyError e = true →
  (decrypt_resp_headers put post).1 = Return pairs.
Proof.
  intros Hst Hpost Hmeta Hkey.
  rewrite (decrypt_resp_headers_after_etags _ post _ _ Hst).
  by rewrite Hpost, Hmeta, Hkey.
Qed.

(** The checksum block logs a failed verification only in the one
    situation of line 90, and then raises. *)
Lemma etag_stage_failed_log put :
  LogDebug "Failed ETag verification" ∈ (etag_stage put).2 →
  ∃ (d : dict) ko kc vo vc,
    put = Some d
    ∧ d !! "object" = Some ko ∧ d !! "container" = Some kc
    ∧ _decrypt_header crypto_etag_header
        (_response_header_value crypto_etag_header) ko true = Return vo
    ∧ _decrypt_header override_etag_header
        (_response_header_value override_etag_header) kc false = Return vc
    ∧ truthy vo = true ∧ vc ≠ vo
    ∧ (etag_stage put).1 = Raise (HTTPForbidden "Invalid key").
Proof.
  unfold etag_stage. destruct put as [d|]; [|by intros ?%elem_of_nil].
  destruct (dict_truthy (Some d)); [|by intros ?%elem_of_nil].
  change (default ∅ (Some d)) with d.
  unfold decrypt_etag_headers, py_getitem.
  fold crypto_etag_header override_etag_header.
  destruct (truthy (_response_header_value crypto_etag_header)
            && py_in "object" d).
  - destruct (d !! "object") as [ko|] eqn:Ho; cbn;
      [|by intros ?%elem_of_nil].
    destruct (_decrypt_header crypto_etag_header _ ko true) as [vo|e]
      eqn:Hdo; cbn; [|by intros [=]%list_elem_of_singleton].
    destruct (truthy (_response_header_value override_etag_header)
              && py_in "container" d); cbn;
      [|by intros [=]%list_elem_of_singleton].
    destruct (d !! "container") as [kc|] eqn:Hc; cbn;
      [|by intros [=]%list_elem_of_singleton].
    destruct (_decrypt_header override_etag_header _ kc false) as [vc|e]
      eqn:Hdc; cbn.
    2:{ rewrite !elem_of_cons, elem_of_nil. by intros [[=]|[[=]|[]]]. }
    destruct (truthy vo && py_ne vc vo) eqn:Hcmp; cbn.
    2:{ rewrite !elem_of_cons, elem_of_nil. by intros [[=]|[[=]|[]]]. }
    intros _. apply andb_true_iff in Hcmp as [Hvo Hne].
    exists d, ko, kc, vo, vc. repeat split; try done.
    unfold py_ne in Hne. apply negb_true_iff in Hne.
    by apply bool_decide_eq_false in Hne.
  - cbn.
    destruct (truthy (_response_header_value override_etag_header)
              && py_in "container" d); cbn; [|by intros ?%elem_of_nil].
    destruct (d !! "container") as [kc|] eqn:Hc; cbn;
      [|by intros ?%elem_of_nil].
    destruct (_decrypt_header override_etag_header _ kc false) as [vc|e];
      cbn; by intros [=]%list_elem_of_singleton.
Qed.

(** X9.  The integrity error is never raised spuriously.  Whenever a run of
    [decrypt_resp_headers] logs 'Failed ETag verification', the bundle
    had both keys, both decryptions returned, the object-scope value was
    truthy and the two values differed; and the run ends in
    [HTTPForbidden('Invalid key')]. *)
Theorem failed_verification_means_mismatch put post :
  LogDebug "Failed ETag verification" ∈ (decrypt_resp_headers put post).2 →
  ∃ (d : dict) ko kc vo vc,
    put = Some d
    ∧ d !! "object" = Some ko ∧ d !! "container" = Some kc
    ∧ _decrypt_header crypto_etag_header
        (_response_header_value crypto_etag_header) ko true = Return vo
    ∧ _decrypt_header override_etag_header
        (_response_header_value override_etag_header) kc false = Return vc
    ∧ truthy vo = true ∧ vc ≠ vo
    ∧ (decrypt_resp_headers put post).1 = Raise (HTTPForbidden "Invalid key").
Proof.
  intros Hlog.
  assert (LogDebug "Failed ETag verification" ∈ (etag_stage put).2) as Hin.
  { destruct (etag_stage put) as [[pairs|e] t] eqn:Hst.
    - destruct (after_etags_summary _ post _ _ Hst) as (_ & _ & Hev).
      by destruct (Hev _ Hlog) as [?|[_ [[=]|[=]]]].
    - by rewrite (decrypt_resp_headers_etag_raise _ post _ _ Hst) in Hlog. }
  destruct (etag_stage_failed_log _ Hin)
    as (d & ko & kc & vo & vc & -> & Ho & Hc & Hdo & Hdc & Hvo & Hne & Hr).
  exists d, ko, kc, vo, vc. repeat split; try done.
  destruct (etag_stage (Some d)) as [r t] eqn:Hst. cbn in Hr. subst r.
  by rewrite (decrypt_resp_headers_etag_raise _ post _ _ Hst).
Qed.

Lemma etag_stage_expected_events put post :
  Forall (expected_event put post) (etag_stage put).2.
Proof.
  unfold etag_stage. destruct put as [d|]; [|by constructor].
  destruct (dict_truthy (Some d)); [|by constructor].
  change (default ∅ (Some d)) with d.
  unfold decrypt_etag_headers, py_getitem.
  assert (∀ kc, truthy (_response_header_value
                          (get_container_update_override_key "etag")) = true →
                d !! "container" = Some kc →
                expected_event (Some d) post
                  (CallDecryptHeader
                     (get_container_update_override_key "etag")
                     (_response_header_value
                        (get_container_update_override_key "etag"))
                     kc false)) as Hcont.
  { intros kc Hec Hc. exists d. split; [done|]. split; [by right|done]. }
  destruct (truthy (_response_header_value "X-Object-Sysmeta-Crypto-Etag"))
    eqn:Heo; cbn [andb].
  2:{ cbn.
      destruct (truthy (_response_header_value
                          (get_container_update_override_key "etag")))
        eqn:Hec; cbn [andb]; [|by constructor].
      destruct (py_in "container" d); cbn; [|by constructor].
      destruct (d !! "container") as [kc|] eqn:Hc; cbn; [|by constructor].
      destruct (_decrypt_header _ _ kc false); cbn;
        repeat constructor; by apply Hcont. }
  destruct (py_in "object" d); cbn.
  2:{ destruct (truthy (_response_header_value
                          (get_container_update_override_key "etag")))
        eqn:Hec; cbn [andb]; [|by constructor].
      destruct (py_in "container" d); cbn; [|by constructor].
      destruct (d !! "container") as [kc|] eqn:Hc; cbn; [|by constructor].
      destruct (_decrypt_header _ _ kc false); cbn;
        repeat constructor; by apply Hcont. }
  destruct (d !! "object") as [ko|] eqn:Ho; cbn; [|by constructor].
  assert (expected_event (Some d) post
            (CallDecryptHeader "X-Object-Sysmeta-Crypto-Etag"
               (_response_header_value "X-Object-Sysmeta-Crypto-Etag")
               ko true)) as Hobj.
  { exists d. split; [done|]. split; [by left|done]. }
  destruct (_decrypt_header _ _ ko true) as [vo|e]; cbn;
    [|by repeat constructor].
  destruct (truthy (_response_header_value
                      (get_container_update_override_key "etag")))
    eqn:Hec; cbn [andb]; [|by repeat constructor].
  destruct (py_in "container" d); cbn; [|by repeat constructor].
  destruct (d !! "container") as [kc|] eqn:Hc; cbn; [|by repeat constructor].
  destruct (_decrypt_header _ _ kc false) as [vc|e]; cbn.
  2:{ repeat constructor; [done|by apply Hcont]. }
  destruct (truthy vo && py_ne vc vo); cbn;
    repeat constructor; try done; by apply Hcont.
Qed.

(** X10.  What [decrypt_resp_headers] calls, on every run.  A header is only
    ever decrypted with a key taken from [put_keys]: the object-scope
    header with the object key and [required=True], the container-scope
    header with the container key and [required=False], each only when
    its header value is non-empty.  The remap is only called with a
    non-empty [post_keys].  Nothing else is called: no key service, no
    next application. *)
Theorem decrypt_resp_headers_expected_events put post :
  Forall (expected_event put post) (decrypt_resp_headers put post).2.
Proof.
  pose proof (etag_stage_expected_events put post) as Hst.
  destruct (etag_stage put) as [[pairs|e] t] eqn:Hrun; cbn [snd] in Hst.
  - destruct (after_etags_summary _ post _ _ Hrun) as (_ & _ & Hev).
    apply Forall_forall. intros ev [Hin|[Hp [-> | ->]]]%Hev.
    + by apply (proj1 (Forall_forall _ _) Hst).
    + done.
    + done.
  - by rewrite (decrypt_resp_headers_etag_raise _ post _ _ Hrun).
Qed.

(** The shape of every list returned. *)
Lemma decrypt_resp_headers_decompose put post l :
  (decrypt_resp_headers put post).1 = Return l →
  ∃ staged,
    (staged_pairs put post).1 = Return staged
    ∧ (l = staged ++ filter (λ hv, lower hv.1 ∉ lower_names staged)
                            _response_headers
       ∨ (l = staged
          ∧ LogDebug "Not able to decrypt user metadata"
              ∈ (decrypt_resp_headers put post).2)).
Proof.
  destruct (etag_stage put) as [[pairs|e] t] eqn:Hst.
  2:{ rewrite (decrypt_resp_headers_etag_raise _ _ _ _ Hst). discriminate. }
  rewrite (decrypt_resp_headers_after_etags _ post _ _ Hst).
  rewrite (staged_pairs_after_etags _ post _ _ Hst).
  destruct (dict_truthy post).
  - destruct (decrypt_user_metadata post) as [meta|e].
    + intros [= <-]. eexists. split; [reflexivity|]. by left.
    + destruct (is_KeyError e); [|discriminate].
      intros [= <-]. exists pairs. split; [reflexivity|]. right.
      split; [done|]. cbn [snd]. rewrite elem_of_app, !elem_of_cons. tauto.
  - intros [= <-]. eexists. split; [reflexivity|]. by left.
Qed.

(** X11.  Untouched headers are kept.  Unless the remap ended in the logged
    [KeyError], every raw response header whose name differs, up to
    case, from the names of all staged headers is in the list
    returned. *)
Theorem raw_headers_are_kept put post l staged hv :
  (decrypt_resp_headers put post).1 = Return l →
  (staged_pairs put post).1 = Return staged →
  LogDebug "Not able to decrypt user metadata"
    ∉ (decrypt_resp_headers put post).2 →
  hv ∈ _response_headers →
  (∀ hv', hv' ∈ staged → lower hv.1 ≠ lower hv'.1) →
  hv ∈ l.
Proof.
  intros Hl Hst Hnolog Hraw Hfresh.
  destruct (decrypt_resp_headers_decompose _ _ _ Hl)
    as (staged' & Hst' & [->|[_ Hlog]]); [|done].
  rewrite Hst in Hst'. injection Hst' as <-.
  apply elem_of_app. right. apply list_elem_of_filter. split; [|done].
  unfold lower_names. rewrite elem_of_list_to_set.
  intros (hv' & Heq & Hin)%list_elem_of_fmap. by apply (Hfresh hv').
Qed.

(** X12.  Decrypted wins over raw.  Under a name that was staged, up to case,
    the list returned holds staged entries only: no raw response header
    survives under that name. *)
Theorem staged_names_shadow_raw put post l staged hv hv' :
  (decrypt_resp_headers put post).1 = Return l →
  (staged_pairs put post).1 = Return staged →
  hv ∈ l → hv' ∈ staged → lower hv.1 = lower hv'.1 →
  hv ∈ staged.
Proof.
  intros Hl Hst Hin Hin' Heq.
  destruct (decrypt_resp_headers_decompose _ _ _ Hl)
    as (staged' & Hst' & [->|[-> _]]);
    rewrite Hst in Hst'; injection Hst' as <-; [|done].
  apply elem_of_app in Hin as [Hin|Hin]; [done|].
  by destruct (passthrough_not_staged _ _ _ Hin Hin').
Qed.

(** X13.  The merge adds no name clash of its own: if the staged headers have
    pairwise distinct names up to case, and so have the raw response
    headers, then so has the list returned. *)
Theorem distinct_names_are_preserved put post l staged :
  (decrypt_resp_headers put post).1 = Return l →
  (staged_pairs put post).1 = Return staged →
  names_distinct staged →
  names_distinct _response_headers →
  names_distinct l.
Proof.
  intros Hl Hst Hstaged Hraw.
  destruct (decrypt_resp_headers_decompose _ _ _ Hl)
    as (staged' & Hst' & [->|[-> _]]);
    rewrite Hst in Hst'; injection Hst' as <-; [|done].
  unfold names_distinct in *. rewrite fmap_app. apply NoDup_app.
  split; [done|]. split.
  - intros name (hv' & -> & Hin')%list_elem_of_fmap
                (hv & Heq & Hin)%list_elem_of_fmap.
    by apply (passthrough_not_staged _ _ _ Hin Hin').
  - apply (sublist_NoDup _ _ Hraw).
    apply fmap_sublist, sublist_filter.
Qed.

(** ** More on dispatch *)

Lemma run_handler_no_http h env status body :
  (run_handler h env).1 ≠ Raise (HTTPException status body).
Proof.
  unfold run_handler, try_except, call.
  destruct (handle h env) as [resp|[]]; cbn; discriminate.
Qed.

(** X15.  An [HTTPException] of a handler never leaves the dispatcher:
    on every run in which a handler is called, the outcome is not an
    [HTTPException] (lines 138-141 turn it into the response).  Nothing
    is said of the runs that go to the next application, whose call is
    outside the [try]. *)
Theorem handler_http_exception_never_escapes env h status body :
  CallHandle h ∈ (Decrypter_call env).2 →
  (Decrypter_call env).1 ≠ Raise (HTTPException status body).
Proof.
  unfold Decrypter_call, py_index.
  destruct (split_path (path env) 3 4 true) as [parts|e].
  - destruct (parts !! 3) as [o|]; [|by intros ?%elem_of_nil].
    rewrite bind_ret.
    destruct (truthy o && is_read_method (method env));
      [intros _; apply run_handler_no_http|].
    destruct (parts !! 2) as [c|]; [|by intros ?%elem_of_nil].
    rewrite bind_ret.
    destruct (truthy c && bool_decide (method env = "GET"));
      [intros _; apply run_handler_no_http|].
    by intros [=]%list_elem_of_singleton.
  - destruct (is_ValueError e).
    + by intros [=]%list_elem_of_singleton.
    + by intros ?%elem_of_nil.
Qed.

(** X16.  How a handler's outcome reaches the caller, once the request is
    routed to it: a response is returned as it is, an [HTTPException] is
    called as the application and its response returned, and any other
    exception is raised. *)
Theorem handler_outcome_is_relayed env parts container object h :
  split_path (path env) 3 4 true = Return parts →
  parts !! 2 = Some container → parts !! 3 = Some object →
  (h = ObjContext ∧ truthy object = true
   ∧ (method env = "HEAD" ∨ method env = "GET"))
  ∨ (h = ContContext ∧ truthy object = false ∧ truthy container = true
     ∧ method env = "GET") →
  Decrypter_call env
  = match handle h env with
    | Return resp => (Return resp, [CallHandle h])
    | Raise (HTTPException status body) =>
        (Return (error_response status body env),
         [CallHandle h; CallErrorResponse status body])
    | Raise e => (Raise e, [CallHandle h])
    end.
Proof.
  intros Hsp Hc Ho Hroute. unfold Decrypter_call, py_index.
  rewrite Hsp, Ho, Hc, !bind_ret.
  destruct Hroute as [(-> & Hobj & Hread%is_read_method_spec)
                     |(-> & Hobj & Hcont & Hget)].
  - rewrite Hobj, Hread. cbn [andb].
    unfold run_handler, try_except, call.
    by destruct (handle ObjContext env) as [resp|[]].
  - rewrite Hobj, Hcont, Hget. cbn.
    unfold run_handler, try_except, call.
    by destruct (handle ContContext env) as [resp|[]].
Qed.

(** X17.  Requests the decrypter leaves alone: every verb other than HEAD and
    GET, and HEAD on a path without object segment, go to the next
    application with the same environment, and no handler is called. *)
Theorem other_verbs_pass_through env parts container object :
  split_path (path env) 3 4 true = Return parts →
  parts !! 2 = Some container → parts !! 3 = Some object →
  (method env ≠ "HEAD" ∧ method env ≠ "GET")
  ∨ (method env = "HEAD" ∧ truthy object = false) →
  Decrypter_call env = (Return (app env), [CallApp]).
Proof.
  intros Hsp Hc Ho Hverb. unfold Decrypter_call, py_index, is_read_method.
  rewrite Hsp, Ho, Hc, !bind_ret.
  destruct Hverb as [[Hhead Hget]|[Hhead Hobj]].
  - rewrite !bool_decide_eq_false_2 by assumption.
    by rewrite !andb_false_r.
  - rewrite Hobj, Hhead. cbn [andb].
    rewrite (bool_decide_eq_false_2 ("HEAD" = "GET")) by discriminate.
    by rewrite andb_false_r.
Qed.

(** ** Key resolution and reconciliation together *)

(** X18.  The read fallback end to end.  On HEAD or GET of a cyphered object,
    when the full-scope fetch is denied and the container-scope fetch
    returns a bundle without object key, that bundle is what
    [get_decryption_keys] returns; and [decrypt_resp_headers] run with
    it, for [put_keys] and [post_keys] alike, stages the container-scope
    checksum copy under the override name and as [ETag] at the head of
    any list it returns, never decrypts with [required=True], and can
    only raise what the metadata remap raised. *)
Theorem denied_read_stages_container_copy req crypto_meta e (keys : dict)
    kc vc :
  config_true_value (dict_get (environ req) "swift.crypto.override") = false →
  is_Some (sysmeta (get_object_info (environ req)) !! "crypto-etag") →
  method req = "HEAD" ∨ method req = "GET" →
  get_keys (environ req) None (key_id_of crypto_meta) = Raise e →
  is_HTTPException e = true →
  get_keys (environ req) (Some ["container"]) (key_id_of crypto_meta)
    = Return keys →
  keys !! "object" = None → keys !! "container" = Some kc →
  truthy (_response_header_value override_etag_header) = true →
  _decrypt_header override_etag_header
    (_response_header_value override_etag_header) kc false = Return vc →
  (get_decryption_keys req crypto_meta).1 = Return (Some keys)
  ∧ (∀ l, (decrypt_resp_headers (Some keys) (Some keys)).1 = Return l →
          [(override_etag_header, vc); ("ETag", vc)] `prefix_of` l)
  ∧ (∀ e', (decrypt_resp_headers (Some keys) (Some keys)).1 = Raise e' →
           decrypt_user_metadata (Some keys) = Raise e')
  ∧ (∀ name value key,
       CallDecryptHeader name value key true
         ∉ (decrypt_resp_headers (Some keys) (Some keys)).2).
Proof.
  intros Hov Hcy%py_in_spec Hread%is_read_method_spec Hfull Hdenied Hretry
         Hno Hc Hec Hdc.
  split.
  { rewrite (get_decryption_keys_fetch _ _ Hov Hcy). cbn zeta.
    by rewrite Hfull, Hdenied, Hread, Hretry. }
  assert (truthy (_response_header_value crypto_etag_header)
          && py_in "object" keys = false) as Hskip.
  { by rewrite (py_in_false _ _ Hno), andb_false_r. }
  pose proof (etag_stage_container_only _ _ _ Hskip Hc Hec Hdc) as Hst.
  destruct (after_etags_summary _ (Some keys) _ _ Hst) as (Hpre & Hexn & Hev).
  split; [done|]. split; [done|].
  intros name value key [Hin|[_ [Hin|Hin]]]%Hev; try discriminate Hin.
  by apply list_elem_of_singleton in Hin.
Qed.

End Properties.

(** ** Worked examples *)

Example run_cyphered_object :
  @decrypt_resp_headers (Toy.swift Toy.cyphered_object)
    (Some Toy.both_keys) (Some Toy.both_keys)
  = (Return [("Etag", PyStr "abc");
             (Toy.override_name, PyStr "abc");
             ("ETag", PyStr "abc");
             ("X-Object-Meta-Color", PyStr "red");
             ("Content-Length", PyStr "3");
             (Toy.etag_name, PyStr "ko|abc");
             (Toy.color_name, PyStr "ko|red")],
     [CallDecryptHeader Toy.etag_name (PyStr "ko|abc") (PyStr "ko") true;
      CallDecryptHeader Toy.override_name (PyStr "kc|abc") (PyStr "kc") false;
      CallDecryptUserMetadata (Some Toy.both_keys)]).
Proof. vm_compute. reflexivity. Qed.

Local Ltac by_eval := vm_compute; reflexivity.
Local Ltac by_decide :=
  match goal with
  | |- ?P => refine (@bool_decide_unpack P _ _); vm_compute; exact I
  end.

(** *** Key resolution *)

(** C5 at work: a GET on a cyphered object, the full scope denied and
    the container scope granted. *)
Lemma read_fallback_witness :
  @get_decryption_keys (Toy.swift Toy.cyphered_object) Toy.get_request None
  = (Return (Some Toy.container_key_only),
     [CallGetKeys None PyNone; CallGetKeys (Some ["container"]) PyNone]).
Proof.
  destruct (@get_decryption_keys_read_fallback
              (Toy.swift Toy.cyphered_object) Toy.get_request None
              (HTTPException 403 "Forbidden")
              ltac:(by_eval) ltac:(by_decide) ltac:(right; reflexivity)
              ltac:(by_eval) ltac:(by_eval)) as (Htrace & Hgranted & _).
  specialize (Hgranted Toy.container_key_only ltac:(by_eval)).
  destruct (@get_decryption_keys (Toy.swift Toy.cyphered_object)
              Toy.get_request None) as [r t].
  cbn [fst snd] in *. rewrite Htrace, Hgranted. reflexivity.
Defined.

(** C6 at work: the same denial on a POST. *)
Lemma denial_propagates_witness :
  @get_decryption_keys (Toy.swift Toy.cyphered_object) Toy.post_request None
  = (Raise (HTTPException 403 "Forbidden"), [CallGetKeys None PyNone]).
Proof.
  apply (@get_decryption_keys_denial_propagates
           (Toy.swift Toy.cyphered_object) Toy.post_request None
           (HTTPException 403 "Forbidden"));
    first [by_eval | by_decide].
Defined.

(** C7 at work: an object that was never cyphered. *)
Lemma not_cyphered_witness :
  @get_decryption_keys (Toy.swift Toy.plain_object) Toy.get_request None
  = (Return None, [])
  ∧ @decrypt_resp_headers (Toy.swift Toy.plain_object) None (Some ∅)
    = (Return [("Content-Length", PyStr "3"); ("Etag", PyStr "md5");
               ("X-Object-Meta-Color", PyStr "red")], []).
Proof.
  destruct (@not_cyphered_is_untouched (Toy.swift Toy.plain_object)
              Toy.get_request None None (Some ∅)
              ltac:(by_eval) ltac:(by_eval) ltac:(by_eval) ltac:(by_eval))
    as (Hkeys & _ & Hheaders).
  split; [exact Hkeys | exact Hheaders].
Defined.

(** *** Checksum verification *)

(** C1 as stated fails: both copies are present, both keys are in the
    bundle, the two decrypted values differ (the object-scope one is the
    empty string), and a header list is returned. *)
Lemma empty_object_etag_not_forbidden :
  let S := Toy.swift Toy.empty_object_etag in
  let eo := @_response_header_value S (@crypto_etag_header) in
  let ec := @_response_header_value S (@override_etag_header S) in
  Toy.both_keys !! "object" = Some (PyStr "ko")
  ∧ Toy.both_keys !! "container" = Some (PyStr "kc")
  ∧ truthy eo = true ∧ truthy ec = true
  ∧ @_decrypt_header S crypto_etag_header eo (PyStr "ko") true
    = Return (PyStr "")
  ∧ @_decrypt_header S (@override_etag_header S) ec (PyStr "kc") false
    = Return (PyStr "abc")
  ∧ PyStr "abc" ≠ PyStr ""
  ∧ (@decrypt_resp_headers S (Some Toy.both_keys) (Some Toy.both_keys)).1
    = Return [("Etag", PyStr "");
              (Toy.override_name, PyStr "abc");
              ("ETag", PyStr "abc");
              ("Content-Length", PyStr "3");
              (Toy.etag_name, PyStr "ko|")].
Proof.
  cbv zeta. repeat split; first [by_eval | discriminate].
Qed.

(** C1, amended, at work: the copies decrypt to [abc] and [xyz]. *)
Lemma etag_mismatch_witness :
  @decrypt_resp_headers (Toy.swift Toy.mismatched_copies)
    (Some Toy.both_keys) (Some Toy.both_keys)
  = (Raise (HTTPForbidden "Invalid key"),
     [CallDecryptHeader Toy.etag_name (PyStr "ko|abc") (PyStr "ko") true;
      CallDecryptHeader Toy.override_name (PyStr "kc|xyz") (PyStr "kc") false;
      LogDebug "Failed ETag verification"]).
Proof.
  apply (@etag_mismatch_is_forbidden (Toy.swift Toy.mismatched_copies)
           Toy.both_keys (Some Toy.both_keys) (PyStr "ko") (PyStr "kc")
           (PyStr "abc") (PyStr "xyz"));
    first [by_eval | discriminate].
Defined.

(** C10 at work: the container-scope copy does not decrypt. *)
Lemma absent_override_etag_witness :
  (@decrypt_resp_headers (Toy.swift Toy.undecryptable_override)
     (Some Toy.both_keys) None).1
  = Raise (HTTPForbidden "Invalid key").
Proof.
  apply (@absent_override_etag_is_forbidden
           (Toy.swift Toy.undecryptable_override)
           Toy.both_keys None (PyStr "ko") (PyStr "kc") (PyStr "abc"));
    by_eval.
Defined.

(** *** Staging and merging *)

(** C2 as stated fails: with both keys the decrypted checksum is staged
    as [Etag] and as [ETag], two names that are equal up to case, and
    both are in the list returned. *)
Lemma etag_staged_under_two_cases :
  ∃ l, (@decrypt_resp_headers (Toy.swift Toy.cyphered_object)
          (Some Toy.both_keys) (Some Toy.both_keys)).1 = Return l
       ∧ ("Etag", PyStr "abc") ∈ l ∧ ("ETag", PyStr "abc") ∈ l
       ∧ ¬ names_distinct l.
Proof.
  eexists. split; [by_eval|]. repeat split; by_decide.
Qed.

(** C2, amended, at work on the same run. *)
Lemma passthrough_distinct_witness :
  ∃ staged passed,
    (@staged_pairs (Toy.swift Toy.cyphered_object)
       (Some Toy.both_keys) (Some Toy.both_keys)).1 = Return staged
    ∧ [("Etag", PyStr "abc");
       (Toy.override_name, PyStr "abc");
       ("ETag", PyStr "abc");
       ("X-Object-Meta-Color", PyStr "red");
       ("Content-Length", PyStr "3");
       (Toy.etag_name, PyStr "ko|abc");
       (Toy.color_name, PyStr "ko|red")] = staged ++ passed
    ∧ passed `sublist_of` @_response_headers (Toy.swift Toy.cyphered_object)
    ∧ ∀ hv hv', hv ∈ passed → hv' ∈ staged → lower hv.1 ≠ lower hv'.1.
Proof.
  apply (@passthrough_distinct_from_staged (Toy.swift Toy.cyphered_object)
           (Some Toy.both_keys) (Some Toy.both_keys)).
  by_eval.
Defined.

(** C3 as stated fails: with the object key alone the decrypted
    checksum is staged as [Etag] and nowhere under the override name. *)
Lemma object_etag_not_staged_as_override :
  let S := Toy.swift Toy.object_copy_only in
  Toy.object_key_only !! "object" = Some (PyStr "ko")
  ∧ truthy (@_response_header_value S crypto_etag_header) = true
  ∧ @_decrypt_header S crypto_etag_header
      (@_response_header_value S crypto_etag_header) (PyStr "ko") true
    = Return (PyStr "abc")
  ∧ ∃ l, (@decrypt_resp_headers S (Some Toy.object_key_only) None).1
         = Return l
         ∧ ("Etag", PyStr "abc") ∈ l
         ∧ ((Toy.override_name, PyStr "abc") ∉ l)
         ∧ ∀ hv, hv ∈ l → hv.1 ≠ @override_etag_header S.
Proof.
  cbv zeta. split; [by_eval|]. split; [by_eval|]. split; [by_eval|].
  eexists. split; [by_eval|]. split; [by_decide|]. split; [by_decide|].
  apply Forall_forall. by_decide.
Qed.

(** C3, amended, at work on the run with the object key alone: after
    [Etag] come raw response headers only. *)
Lemma object_etag_witness :
  ∃ rest,
    (@decrypt_resp_headers (Toy.swift Toy.object_copy_only)
       (Some Toy.object_key_only) None).1
    = Return (("Etag", PyStr "abc") :: rest)
    ∧ ∀ hv, hv ∈ rest →
        hv ∈ @_response_headers (Toy.swift Toy.object_copy_only).
Proof.
  destruct (@object_etag_is_staged_as_Etag (Toy.swift Toy.object_copy_only)
              Toy.object_key_only None (PyStr "ko")
              ltac:(by_eval) ltac:(by_eval)) as (_ & _ & Hstaged).
  destruct (Hstaged (PyStr "abc")
              [("Etag", PyStr "abc"); ("Content-Length", PyStr "3");
               (Toy.etag_name, PyStr "ko|abc")]
              ltac:(by_eval) ltac:(by_eval))
    as (rest & Hrest & [[_ Hl]|(kc & vc & Hc & _)]).
  - exists rest. split.
    + rewrite <- Hl. by_eval.
    + intros hv Hin. destruct (Hrest hv Hin) as [Hraw|[Hpost _]].
      * exact Hraw.
      * discriminate Hpost.
  - vm_compute in Hc. discriminate Hc.
Defined.

(** C4 as stated fails, twice.  With the container-only bundle the
    remap raises a [KeyError]: it is logged and the list is returned,
    but [Content-Length], a raw response header whose name collides with
    nothing staged, is not in it.  And a failure of another class, here
    the internal server error of a metadata header that does not
    decrypt, is raised. *)
Lemma metadata_failure_loses_headers_or_raises :
  (let S := Toy.swift Toy.cyphered_object in
   @decrypt_user_metadata S (Some Toy.container_key_only)
   = Raise (KeyError "object")
   ∧ @decrypt_resp_headers S (Some Toy.container_key_only)
       (Some Toy.container_key_only)
     = (Return [(Toy.override_name, PyStr "abc"); ("ETag", PyStr "abc")],
        [CallDecryptHeader Toy.override_name (PyStr "kc|abc") (PyStr "kc")
           false;
         CallDecryptUserMetadata (Some Toy.container_key_only);
         LogDebug "Not able to decrypt user metadata"])
   ∧ ("Content-Length", PyStr "3") ∈ @_response_headers S
   ∧ lower "Content-Length"
     ∉ @lower_names [(Toy.override_name, PyStr "abc"); ("ETag", PyStr "abc")])
  ∧ (let S := Toy.swift Toy.undecryptable_metadata in
     @decrypt_user_metadata S (Some Toy.both_keys)
     = Raise (HTTPException 500 "Error decrypting header")
     ∧ @decrypt_resp_headers S (Some Toy.both_keys) (Some Toy.both_keys)
       = (Raise (HTTPException 500 "Error decrypting header"),
          [CallDecryptUserMetadata (Some Toy.both_keys)])).
Proof.
  cbv zeta. repeat split; first [by_eval | by_decide].
Qed.

(** C4, amended, at work on the container-only bundle. *)
Lemma metadata_key_error_witness :
  ∃ l, @decrypt_resp_headers (Toy.swift Toy.cyphered_object)
         (Some Toy.container_key_only) (Some Toy.container_key_only)
       = (Return l,
          [CallDecryptHeader Toy.override_name (PyStr "kc|abc") (PyStr "kc")
             false]
          ++ [CallDecryptUserMetadata (Some Toy.container_key_only);
              LogDebug "Not able to decrypt user metadata"])
       ∧ [(Toy.override_name, PyStr "abc"); ("ETag", PyStr "abc")]
         `prefix_of` l
       ∧ ∀ hv, hv ∈ l →
           hv ∈ [(Toy.override_name, PyStr "abc"); ("ETag", PyStr "abc")]
           ∨ hv ∈ @_response_headers (Toy.swift Toy.cyphered_object).
Proof.
  apply (@metadata_key_error_is_logged (Toy.swift Toy.cyphered_object)
           (Some Toy.container_key_only) (Some Toy.container_key_only)
           [(Toy.override_name, PyStr "abc"); ("ETag", PyStr "abc")]
           [CallDecryptHeader Toy.override_name (PyStr "kc|abc") (PyStr "kc")
              false]
           (KeyError "object")); by_eval.
Defined.

(** C8 as stated fails: the checksum block has returned, the remap
    raises an internal server error, and [decrypt_resp_headers] raises
    it. *)
Lemma metadata_error_propagates :
  let S := Toy.swift Toy.undecryptable_metadata in
  @etag_stage S (Some Toy.both_keys) = (Return [], [])
  ∧ @decrypt_user_metadata S (Some Toy.both_keys)
    = Raise (HTTPException 500 "Error decrypting header")
  ∧ (@decrypt_resp_headers S (Some Toy.both_keys) (Some Toy.both_keys)).1
    = Raise (HTTPException 500 "Error decrypting header").
Proof.
  cbv zeta. repeat split; by_eval.
Qed.

(** C8, amended, at work in both directions: the server error gets
    out, the [KeyError] does not. *)
Lemma only_key_error_witness :
  (@decrypt_resp_headers (Toy.swift Toy.undecryptable_metadata)
     (Some Toy.both_keys) (Some Toy.both_keys)).1
  = Raise (HTTPException 500 "Error decrypting header")
  ∧ (@decrypt_resp_headers (Toy.swift Toy.cyphered_object)
       (Some Toy.container_key_only) (Some Toy.container_key_only)).1
    ≠ Raise (KeyError "object").
Proof.
  split.
  - apply (@only_key_error_is_swallowed (Toy.swift Toy.undecryptable_metadata)
             (Some Toy.both_keys) (Some Toy.both_keys) [] []
             (HTTPException 500 "Error decrypting header") ltac:(by_eval)).
    repeat split; by_eval.
  - intros Hraise.
    apply (@only_key_error_is_swallowed (Toy.swift Toy.cyphered_object)
             (Some Toy.container_key_only) (Some Toy.container_key_only)
             [(Toy.override_name, PyStr "abc"); ("ETag", PyStr "abc")]
             [CallDecryptHeader Toy.override_name (PyStr "kc|abc")
                (PyStr "kc") false]
             (KeyError "object") ltac:(by_eval)) in Hraise.
    destruct Hraise as (_ & _ & Hclass). discriminate Hclass.
Defined.

(** *** Dispatch *)

(** C9 at work: a GET on an object path goes to the object handler,
    whose [HTTPForbidden] becomes the response; a path that does not
    parse goes to the next application. *)
Lemma dispatcher_witness :
  @Decrypter_call (Toy.swift Toy.cyphered_object) Toy.get_request
  = (Return "Invalid key",
     [CallHandle ObjContext; CallErrorResponse 403 "Invalid key"])
  ∧ @Decrypter_call (Toy.swift Toy.plain_object) Toy.get_request
    = (Return "upstream:/v1/a/c/o", [CallApp]).
Proof.
  split.
  - rewrite (proj1 (proj2 (@dispatcher_follows_routing
                               (Toy.swift Toy.cyphered_object)
                               Toy.get_request))
               [PyStr "v1"; PyStr "a"; PyStr "c"; PyStr "o"]
               (PyStr "c") (PyStr "o")
               ltac:(by_eval) ltac:(by_eval) ltac:(by_eval)).
    by_eval.
  - destruct (proj1 (@dispatcher_follows_routing
                       (Toy.swift Toy.plain_object) Toy.get_request)
                (ValueError "Invalid path: /info")
                ltac:(by_eval) ltac:(by_eval)) as [-> _].
    by_eval.
Defined.

(** *** More examples: key resolution *)

Local Ltac by_cases_in H :=
  apply list_elem_of_In in H; vm_compute in H;
  repeat (destruct H as [H|H]; [try discriminate H|]); try contradiction.

(** A GET with the full scope denied does not raise the denial. *)
Lemma read_request_never_denied_witness :
  (@get_decryption_keys (Toy.swift Toy.cyphered_object) Toy.get_request None).1
  ≠ Raise (HTTPException 403 "Forbidden").
Proof.
  apply (@read_request_never_denied (Toy.swift Toy.cyphered_object)
           Toy.get_request None 403 "Forbidden").
  right. reflexivity.
Defined.

(** A granted fetch on a POST; a key service that times out on a GET. *)
Lemma key_fetch_outcome_witness :
  @get_decryption_keys (Toy.swift Toy.granted_object) Toy.post_request None
  = (Return (Some Toy.both_keys), [CallGetKeys None PyNone])
  ∧ @get_decryption_keys (Toy.swift Toy.broken_key_service) Toy.get_request
      None
    = (Raise (OtherError "ConnectionTimeout"), [CallGetKeys None PyNone]).
Proof.
  split.
  - apply (proj1 (@key_fetch_outcome_without_denial
                    (Toy.swift Toy.granted_object) Toy.post_request None
                    ltac:(by_eval) ltac:(by_decide))).
    by_eval.
  - apply (proj2 (@key_fetch_outcome_without_denial
                    (Toy.swift Toy.broken_key_service) Toy.get_request None
                    ltac:(by_eval) ltac:(by_decide))); by_eval.
Defined.

(** The bundle of the read fallback came from the container-scope
    fetch. *)
Lemma returned_bundle_origin_witness :
  let S := Toy.swift Toy.cyphered_object in
  @get_keys S (environ Toy.get_request) None (key_id_of None)
  = Return Toy.container_key_only
  ∨ (is_read_method (method Toy.get_request) = true
     ∧ (∃ e, @get_keys S (environ Toy.get_request) None (key_id_of None)
             = Raise e ∧ is_HTTPException e = true)
     ∧ @get_keys S (environ Toy.get_request) (Some ["container"])
         (key_id_of None) = Return Toy.container_key_only).
Proof.
  apply (@returned_bundle_origin (Toy.swift Toy.cyphered_object)
           Toy.get_request None Toy.container_key_only).
  by_eval.
Defined.

(** *** More examples: header reconciliation *)

Lemma matching_etags_witness :
  let S := Toy.swift Toy.cyphered_object in
  (∀ l, (@decrypt_resp_headers S (Some Toy.both_keys)
           (Some Toy.both_keys)).1 = Return l →
        [("Etag", PyStr "abc"); (@override_etag_header S, PyStr "abc");
         ("ETag", PyStr "abc")] `prefix_of` l)
  ∧ (∀ e, (@decrypt_resp_headers S (Some Toy.both_keys)
             (Some Toy.both_keys)).1 = Raise e →
          @decrypt_user_metadata S (Some Toy.both_keys) = Raise e).
Proof.
  apply (@matching_etags_are_staged (Toy.swift Toy.cyphered_object)
           Toy.both_keys (Some Toy.both_keys) (PyStr "ko") (PyStr "kc")
           (PyStr "abc")); by_eval.
Defined.

Lemma container_copy_alone_witness :
  let S := Toy.swift Toy.cyphered_object in
  let run := @decrypt_resp_headers S (Some Toy.container_key_only) None in
  (∀ l, run.1 = Return l →
        [(@override_etag_header S, PyStr "abc"); ("ETag", PyStr "abc")]
          `prefix_of` l)
  ∧ (∀ e, run.1 = Raise e → @decrypt_user_metadata S None = Raise e)
  ∧ (∀ name value key required,
       CallDecryptHeader name value key required ∈ run.2 → required = false).
Proof.
  apply (@container_copy_alone_is_staged (Toy.swift Toy.cyphered_object)
           Toy.container_key_only None (PyStr "kc") (PyStr "abc")); by_eval.
Defined.

(** A bundle is of no use on a response without checksum headers. *)
Lemma unusable_put_keys_witness :
  @decrypt_resp_headers (Toy.swift Toy.plain_object) (Some Toy.both_keys) None
  = @decrypt_resp_headers (Toy.swift Toy.plain_object) None None.
Proof.
  apply (@unusable_put_keys_are_ignored (Toy.swift Toy.plain_object)
           (Some Toy.both_keys) None); by_eval.
Defined.

Lemma key_error_checksum_only_witness :
  (@decrypt_resp_headers (Toy.swift Toy.cyphered_object)
     (Some Toy.container_key_only) (Some Toy.container_key_only)).1
  = Return [(Toy.override_name, PyStr "abc"); ("ETag", PyStr "abc")].
Proof.
  apply (@key_error_returns_checksum_headers_only
           (Toy.swift Toy.cyphered_object)
           (Some Toy.container_key_only) (Some Toy.container_key_only)
           [(Toy.override_name, PyStr "abc"); ("ETag", PyStr "abc")]
           [CallDecryptHeader Toy.override_name (PyStr "kc|abc") (PyStr "kc")
              false]
           (KeyError "object")); by_eval.
Defined.

Lemma failed_verification_witness :
  (@decrypt_resp_headers (Toy.swift Toy.mismatched_copies)
     (Some Toy.both_keys) None).1
  = Raise (HTTPForbidden "Invalid key").
Proof.
  destruct (@failed_verification_means_mismatch
              (Toy.swift Toy.mismatched_copies) (Some Toy.both_keys) None)
    as (d & ko & kc & vo & vc & _ & _ & _ & _ & _ & _ & _ & Hraise).
  - apply list_elem_of_In. vm_compute. tauto.
  - exact Hraise.
Defined.

Lemma raw_headers_are_kept_witness :
  ("Content-Length", PyStr "3")
  ∈ [("Etag", PyStr "abc");
     (Toy.override_name, PyStr "abc");
     ("ETag", PyStr "abc");
     ("X-Object-Meta-Color", PyStr "red");
     ("Content-Length", PyStr "3");
     (Toy.etag_name, PyStr "ko|abc");
     (Toy.color_name, PyStr "ko|red")].
Proof.
  apply (@raw_headers_are_kept (Toy.swift Toy.cyphered_object)
           (Some Toy.both_keys) (Some Toy.both_keys) _
           [("Etag", PyStr "abc");
            (Toy.override_name, PyStr "abc");
            ("ETag", PyStr "abc");
            ("X-Object-Meta-Color", PyStr "red")]).
  - by_eval.
  - by_eval.
  - intros Hin. by_cases_in Hin.
  - by_decide.
  - intros hv' Hin. by_cases_in Hin; subst hv'; vm_compute; discriminate.
Defined.

Lemma staged_names_shadow_raw_witness :
  ("ETag", PyStr "abc")
  ∈ [("Etag", PyStr "abc");
     (Toy.override_name, PyStr "abc");
     ("ETag", PyStr "abc");
     ("X-Object-Meta-Color", PyStr "red")].
Proof.
  apply (@staged_names_shadow_raw (Toy.swift Toy.cyphered_object)
           (Some Toy.both_keys) (Some Toy.both_keys)
           [("Etag", PyStr "abc");
            (Toy.override_name, PyStr "abc");
            ("ETag", PyStr "abc");
            ("X-Object-Meta-Color", PyStr "red");
            ("Content-Length", PyStr "3");
            (Toy.etag_name, PyStr "ko|abc");
            (Toy.color_name, PyStr "ko|red")]
           _ _ ("Etag", PyStr "abc"));
    first [by_eval | by_decide].
Defined.

Lemma distinct_names_witness :
  names_distinct [("Etag", PyStr "abc");
                  ("Content-Length", PyStr "3");
                  (Toy.etag_name, PyStr "ko|abc")].
Proof.
  apply (@distinct_names_are_preserved (Toy.swift Toy.object_copy_only)
           (Some Toy.object_key_only) None _ [("Etag", PyStr "abc")]);
    first [by_eval | by_decide].
Defined.

(** *** More examples: dispatch, and the two together *)

Lemma handler_http_exception_witness :
  (@Decrypter_call (Toy.swift Toy.cyphered_object) Toy.get_request).1
  ≠ Raise (HTTPForbidden "Invalid key").
Proof.
  apply (@handler_http_exception_never_escapes
           (Toy.swift Toy.cyphered_object) Toy.get_request ObjContext
           403 "Invalid key").
  apply list_elem_of_In. vm_compute. tauto.
Defined.

Lemma handler_outcome_witness :
  @Decrypter_call (Toy.swift Toy.cyphered_object) Toy.get_request
  = (Return "Invalid key",
     [CallHandle ObjContext; CallErrorResponse 403 "Invalid key"]).
Proof.
  rewrite (@handler_outcome_is_relayed (Toy.swift Toy.cyphered_object)
             Toy.get_request
             [PyStr "v1"; PyStr "a"; PyStr "c"; PyStr "o"]
             (PyStr "c") (PyStr "o") ObjContext
             ltac:(by_eval) ltac:(by_eval) ltac:(by_eval)
             ltac:(left; split; [reflexivity|];
                   split; [by_eval|right; reflexivity])).
  by_eval.
Defined.

Lemma other_verbs_witness :
  @Decrypter_call (Toy.swift Toy.cyphered_object) Toy.post_request
  = (Return "upstream:/v1/a/c/o", [CallApp]).
Proof.
  rewrite (@other_verbs_pass_through (Toy.swift Toy.cyphered_object)
             Toy.post_request
             [PyStr "v1"; PyStr "a"; PyStr "c"; PyStr "o"]
             (PyStr "c") (PyStr "o")
             ltac:(by_eval) ltac:(by_eval) ltac:(by_eval)
             ltac:(left; split; discriminate)).
  by_eval.
Defined.

Lemma denied_read_witness :
  let S := Toy.swift Toy.cyphered_object in
  let keys := Some Toy.container_key_only in
  (@get_decryption_keys S Toy.get_request None).1 = Return keys
  ∧ (∀ l, (@decrypt_resp_headers S keys keys).1 = Return l →
          [(@override_etag_header S, PyStr "abc"); ("ETag", PyStr "abc")]
            `prefix_of` l)
  ∧ (∀ e', (@decrypt_resp_headers S keys keys).1 = Raise e' →
           @decrypt_user_metadata S keys = Raise e')
  ∧ (∀ name value key,
       CallDecryptHeader name value key true
         ∉ (@decrypt_resp_headers S keys keys).2).
Proof.
  apply (@denied_read_stages_container_copy (Toy.swift Toy.cyphered_object)
           Toy.get_request None (HTTPException 403 "Forbidden")
           Toy.container_key_only (PyStr "kc") (PyStr "abc"));
    first [by_eval | by_decide | (right; reflexivity)].
Defined.
